(** * NewsSummarizer: article store, provider parameters, summarisation, voice commands

    A shallow embedding of the TypeScript sources

    - [server/storage.ts]               ([MemStorage]: the article store),
    - [server/services/newsService.ts]  ([NewsService]: provider request parameters),
    - [server/services/openaiService.ts] ([GeminiService]: summaries),
    - [server/routes.ts]                (the summarize-article route),
    - [shared/schema.ts]                ([newsFiltersSchema]),
    - the voice search hook [useVoiceSearch] ([processVoiceCommand]),
    - [server/routes.ts] again (the two news routes) and the users and
      preferences of [server/storage.ts],
    - of the client: the home page, [components/news-header.tsx],
      [components/settings-modal.tsx], [hooks/use-speech-recognition.tsx] and
      [lib/newsApi.ts],

    followed by the properties established about them.

    Conventions of the embedding.
    - A JavaScript string is a [string]; [toLowerCase] and [trim] are modelled on
      the ASCII range (letters A-Z, and the white space characters TAB, LF, VT,
      FF, CR and SPACE).
    - A [Date] is its time value in milliseconds, an integer, or the Invalid
      Date that [new Date(s)] gives for a string it cannot read ([JsDate]).
    - A value that may be [undefined] or [null] is an [option].
    - The [Map] of [MemStorage] is an association list in insertion order with
      the behaviour of [Map.prototype.set]: an existing key keeps its position.
    - [randomUUID()] and [new Date()] are results of the environment: the
      operations that call them take the drawn value as an argument.
    - The summarisation engine ([ai.models.generateContent]) is a function from
      the model name and the prompt to an outcome: it throws, or it responds
      with a text that may be absent.
    - The news provider is a function from the path and the parameters of a
      request to the outcome of the fetch.
    - Built-ins of the language that are not modelled are parameters:
      [Number(value)], [n.toString()], [new Date(string)] and [(page || 1) + 1].
    - A filters object of the client is the list of its own properties in the
      order of their creation. *)

From Stdlib Require Import List String Ascii Bool Arith ZArith QArith Lia.
From Stdlib Require Import Sorting.Sorted Sorting.Permutation.
From Stdlib Require Import Numbers.DecimalString.
Import ListNotations.

Close Scope Q_scope.
Local Open Scope nat_scope.
Local Open Scope list_scope.
Local Open Scope string_scope.

(* ===================================================================== *)
(** * JavaScript values                                                    *)
(* ===================================================================== *)

Module Js.

(** Truthiness of a string: the empty string is falsy. *)
Definition truthyStr (s : string) : bool := negb (s =? "").

(** Truthiness of a string that may be [undefined] or [null]. *)
Definition truthy (o : option string) : bool :=
  match o with
  | Some s => truthyStr s
  | None => false
  end.

(** [a || b] on values that are strings, [undefined] or [null]. *)
Definition or (a b : option string) : option string :=
  if truthy a then a else b.

(** [a || "literal"]: the right operand is a string, so is the result. *)
Definition orStr (a : option string) (b : string) : string :=
  match a with
  | Some s => if truthyStr s then s else b
  | None => b
  end.

(** [arr.includes(v)] for an array of strings: [undefined] and [null] are never
    found in it. *)
Definition includes (arr : list string) (v : option string) : bool :=
  match v with
  | Some s => existsb (String.eqb s) arr
  | None => false
  end.

(** [WhiteSpace] and [LineTerminator] code points of the ASCII range. *)
Definition isWhiteSpace (c : ascii) : bool :=
  let n := nat_of_ascii c in
  ((9 <=? n)%nat && (n <=? 13)%nat) || (n =? 32)%nat.

Fixpoint trimStart (s : string) : string :=
  match s with
  | EmptyString => EmptyString
  | String c s' => if isWhiteSpace c then trimStart s' else s
  end.

Fixpoint trimEnd (s : string) : string :=
  match s with
  | EmptyString => EmptyString
  | String c s' =>
      match trimEnd s' with
      | EmptyString => if isWhiteSpace c then EmptyString else String c EmptyString
      | r => String c r
      end
  end.

(** [s.trim()]. *)
Definition trim (s : string) : string := trimEnd (trimStart s).

Definition lowerChar (c : ascii) : ascii :=
  let n := nat_of_ascii c in
  if ((65 <=? n)%nat && (n <=? 90)%nat)%bool then ascii_of_nat (n + 32) else c.

(** [s.toLowerCase()]. *)
Fixpoint toLowerCase (s : string) : string :=
  match s with
  | EmptyString => EmptyString
  | String c s' => String (lowerChar c) (toLowerCase s')
  end.

(** [s.startsWith(p)]. *)
Definition startsWith (s p : string) : bool := String.prefix p s.

(** [s.substring(n)]: the string without its first [n] characters, empty when
    [n] exceeds the length. *)
Fixpoint substring (n : nat) (s : string) : string :=
  match n, s with
  | O, _ => s
  | S n', String _ s' => substring n' s'
  | S _, EmptyString => EmptyString
  end.

(** [arr.join(sep)]. *)
Fixpoint join (sep : string) (arr : list string) : string :=
  match arr with
  | [] => ""
  | [x] => x
  | x :: rest => x ++ sep ++ join sep rest
  end.

(** The decimal rendering of a non-negative integer in a template literal. *)
Definition natToString (n : nat) : string :=
  NilEmpty.string_of_uint (Nat.to_uint n).

(** The line feed of a multi-line template literal. *)
Definition nl : string := String (ascii_of_nat 10) EmptyString.

(** The double quote character inside a template literal. *)
Definition dq : string := String (ascii_of_nat 34) EmptyString.

(** A JavaScript number, as far as the comparisons of the schema need it. *)
Inductive number : Type :=
| NaN
| PosInfinity
| NegInfinity
| Finite (q : Q).

(** Truthiness of a number: [0] and [NaN] are falsy. *)
Definition truthyNum (n : number) : bool :=
  match n with
  | NaN => false
  | PosInfinity | NegInfinity => true
  | Finite q => negb (Qeq_bool q 0%Q)
  end.

(** [n >= bound] for a finite [bound]. *)
Definition geb (n : number) (bound : Q) : bool :=
  match n with
  | NaN | NegInfinity => false
  | PosInfinity => true
  | Finite q => Qle_bool bound q
  end.

(** [n <= bound] for a finite [bound]. *)
Definition leb (n : number) (bound : Q) : bool :=
  match n with
  | NaN | PosInfinity => false
  | NegInfinity => true
  | Finite q => Qle_bool q bound
  end.

End Js.

(** A [Map<string, V>]: association list in insertion order. *)
Module JsMap.
Section WithValue.
Context {V : Type}.

Definition t : Type := list (string * V).

Definition empty : t := [].

(** [m.get(k)]. *)
Fixpoint get (k : string) (m : t) : option V :=
  match m with
  | [] => None
  | (k', v) :: m' => if k' =? k then Some v else get k m'
  end.

(** [m.set(k, v)]: an existing key keeps its place, a new key goes last. *)
Fixpoint set (k : string) (v : V) (m : t) : t :=
  match m with
  | [] => [(k, v)]
  | (k', v') :: m' => if k' =? k then (k, v) :: m' else (k', v') :: set k v m'
  end.

(** [Array.from(m.values())]. *)
Definition values (m : t) : list V := map snd m.

Definition keys (m : t) : list string := map fst m.

End WithValue.
Arguments t : clear implicits.
End JsMap.

(** [arr.sort(cmp)]: a stable sort (ECMAScript 2019), here insertion sort. An
    element goes before the first one it does not compare greater than. For a
    comparator that is consistent, the result is the one every stable sort
    gives. For one that is not (the comparator of [getArticles] when a date is
    the Invalid Date) the standard leaves the order to the implementation:
    the result here is then one permutation among those, and no property
    below reads its order. *)
Section Sort.
Context {A : Type}.
Variable cmp : A -> A -> Z.

Fixpoint sortInsert (x : A) (l : list A) : list A :=
  match l with
  | [] => [x]
  | y :: l' => if (cmp x y <=? 0)%Z then x :: y :: l' else y :: sortInsert x l'
  end.

Fixpoint sort (l : list A) : list A :=
  match l with
  | [] => []
  | x :: l' => sortInsert x (sort l')
  end.

End Sort.

(** The outcome of code that may throw an [Error]. *)
Inductive result (A : Type) : Type :=
| Ok (a : A)
| Throw (message : string).
Arguments Ok {A} a.
Arguments Throw {A} message.

(** A [Date]: a time value in milliseconds, or the Invalid Date, whose
    [getTime()] is [NaN]. An integer is read as the date of that time value. *)
Inductive JsDate : Type :=
| ValidDate (time : Z)
| InvalidDate.

Coercion ValidDate : Z >-> JsDate.

(* ===================================================================== *)
(** * shared/schema.ts: the article record                                *)
(* ===================================================================== *)

(** The provider's [source] object, stored as JSON: [{id, name}], where either
    field may be missing or [null]. *)
Module Source.
Record t : Type := mk {
  id : option string;
  name : option string
}.
End Source.

(** [Article = typeof articles.$inferSelect]. The [source] column is JSON and
    is read through [as any] with optional chaining, hence the [option]. *)
Module Article.
Record t : Type := mk {
  id : string;
  title : string;
  description : option string;
  content : option string;
  url : string;
  urlToImage : option string;
  publishedAt : JsDate;
  source : option Source.t;
  author : option string;
  category : option string;
  country : option string;
  aiSummary : option string;
  createdAt : option Z
}.
End Article.

(** [InsertArticle]: the article without [id] and [createdAt]. *)
Module InsertArticle.
Record t : Type := mk {
  title : string;
  description : option string;
  content : option string;
  url : string;
  urlToImage : option string;
  publishedAt : JsDate;
  source : option Source.t;
  author : option string;
  category : option string;
  country : option string;
  aiSummary : option string
}.
End InsertArticle.

(** [Partial<Article>]: every property may be absent ([None]); a present
    property carries a value of the field's type. *)
Module PartialArticle.
Record t : Type := mk {
  id : option string;
  title : option string;
  description : option (option string);
  content : option (option string);
  url : option string;
  urlToImage : option (option string);
  publishedAt : option JsDate;
  source : option (option Source.t);
  author : option (option string);
  category : option (option string);
  country : option (option string);
  aiSummary : option (option string);
  createdAt : option (option Z)
}.

(** The object literal [{}]. *)
Definition none : t :=
  mk None None None None None None None None None None None None None.

(** The object literal [{ aiSummary: summary }]. *)
Definition ofAiSummary (summary : string) : t :=
  mk None None None None None None None None None None None (Some (Some summary)) None.
End PartialArticle.

(* ===================================================================== *)
(** * server/storage.ts: MemStorage                                       *)
(* ===================================================================== *)

(** The [filters] argument of [getArticles]. *)
Module ArticleFilters.
Record t : Type := mk {
  country : option string;
  category : option string;
  sources : option (list string)
}.
End ArticleFilters.

(** The [articles] map of [MemStorage]. *)
Definition MemStorage : Type := JsMap.t Article.t.

(** One property of [{ ...existing, ...updates }]. *)
Definition spread {A : Type} (existing : A) (update : option A) : A :=
  match update with
  | Some v => v
  | None => existing
  end.

(** [{ ...existing, ...updates }]. *)
Definition merge (existing : Article.t) (updates : PartialArticle.t) : Article.t :=
  Article.mk
    (spread (Article.id existing) (PartialArticle.id updates))
    (spread (Article.title existing) (PartialArticle.title updates))
    (spread (Article.description existing) (PartialArticle.description updates))
    (spread (Article.content existing) (PartialArticle.content updates))
    (spread (Article.url existing) (PartialArticle.url updates))
    (spread (Article.urlToImage existing) (PartialArticle.urlToImage updates))
    (spread (Article.publishedAt existing) (PartialArticle.publishedAt updates))
    (spread (Article.source existing) (PartialArticle.source updates))
    (spread (Article.author existing) (PartialArticle.author updates))
    (spread (Article.category existing) (PartialArticle.category updates))
    (spread (Article.country existing) (PartialArticle.country updates))
    (spread (Article.aiSummary existing) (PartialArticle.aiSummary updates))
    (spread (Article.createdAt existing) (PartialArticle.createdAt updates)).

(** [article.country === filters.country], and the same on [category]. *)
Definition strictEq (field : option string) (wanted : string) : bool :=
  match field with
  | Some s => s =? wanted
  | None => false
  end.

(** [source?.name || source?.id]. *)
Definition sourceKey (a : Article.t) : option string :=
  match Article.source a with
  | Some src => Js.or (Source.name src) (Source.id src)
  | None => None
  end.

(** The comparator of [getArticles],
    [new Date(b.publishedAt).getTime() - new Date(a.publishedAt).getTime()],
    as [sort] reads its value: the difference of the two time values, and
    [+0] when the difference is [NaN], which it is as soon as one of the two
    dates is the Invalid Date (ECMA-262, SortCompare: a comparator value that
    is [NaN] counts as [+0]). *)
Definition byPublishedAtDesc (a b : Article.t) : Z :=
  match Article.publishedAt b, Article.publishedAt a with
  | ValidDate tb, ValidDate ta => (tb - ta)%Z
  | _, _ => 0%Z
  end.

(** [getArticles(filters?)]. *)
Definition getArticles (filters : option ArticleFilters.t) (st : MemStorage)
  : list Article.t :=
  let articles := JsMap.values st in
  let articles :=
    match filters with
    | Some f =>
        match ArticleFilters.country f with
        | Some c =>
            if Js.truthyStr c
            then filter (fun article => strictEq (Article.country article) c) articles
            else articles
        | None => articles
        end
    | None => articles
    end in
  let articles :=
    match filters with
    | Some f =>
        match ArticleFilters.category f with
        | Some c =>
            if Js.truthyStr c
            then filter (fun article => strictEq (Article.category article) c) articles
            else articles
        | None => articles
        end
    | None => articles
    end in
  let articles :=
    match filters with
    | Some f =>
        match ArticleFilters.sources f with
        | Some srcs =>
            if (0 <? List.length srcs)%nat
            then filter (fun article => Js.includes srcs (sourceKey article)) articles
            else articles
        | None => articles
        end
    | None => articles
    end in
  sort byPublishedAtDesc articles.

(** [createArticle(insertArticle)], with the identifier drawn by [randomUUID()]
    and the time read by [new Date()]. *)
Definition createArticle (uuid : string) (now : Z) (insertArticle : InsertArticle.t)
    (st : MemStorage) : Article.t * MemStorage :=
  let article :=
    Article.mk uuid
      (InsertArticle.title insertArticle)
      (InsertArticle.description insertArticle)
      (InsertArticle.content insertArticle)
      (InsertArticle.url insertArticle)
      (InsertArticle.urlToImage insertArticle)
      (InsertArticle.publishedAt insertArticle)
      (InsertArticle.source insertArticle)
      (InsertArticle.author insertArticle)
      (InsertArticle.category insertArticle)
      (InsertArticle.country insertArticle)
      (InsertArticle.aiSummary insertArticle)
      (Some now) in
  (article, JsMap.set uuid article st).

(** [updateArticle(id, updates)]. *)
Definition updateArticle (id : string) (updates : PartialArticle.t) (st : MemStorage)
  : result (Article.t * MemStorage) :=
  match JsMap.get id st with
  | None => Throw ("Article with id " ++ id ++ " not found")
  | Some existing =>
      let updated := merge existing updates in
      Ok (updated, JsMap.set id updated st)
  end.

(** A request against the store, and the store after it: a failed update
    leaves the store as it was. *)
Inductive StoreOp : Type :=
| OpCreate (uuid : string) (now : Z) (insertArticle : InsertArticle.t)
| OpUpdate (id : string) (updates : PartialArticle.t).

Definition applyOp (st : MemStorage) (op : StoreOp) : MemStorage :=
  match op with
  | OpCreate uuid now ins => snd (createArticle uuid now ins st)
  | OpUpdate id updates =>
      match updateArticle id updates st with
      | Ok (_, st') => st'
      | Throw _ => st
      end
  end.

Definition applyOps (ops : list StoreOp) (st : MemStorage) : MemStorage :=
  fold_left applyOp ops st.

(** The store as the routes keep it: keys are distinct (a [Map]) and every
    record is stored under its own [id]. *)
Definition keyed (st : MemStorage) : Prop :=
  NoDup (JsMap.keys st) /\ forall k a, In (k, a) st -> Article.id a = k.

(** The three tests of [getArticles] as one predicate on a record. *)
Definition matches (filters : option ArticleFilters.t) (article : Article.t) : bool :=
  match filters with
  | None => true
  | Some f =>
      match ArticleFilters.country f with
      | Some c => if Js.truthyStr c then strictEq (Article.country article) c else true
      | None => true
      end
      && match ArticleFilters.category f with
         | Some c => if Js.truthyStr c then strictEq (Article.category article) c else true
         | None => true
         end
      && match ArticleFilters.sources f with
         | Some srcs =>
             if (0 <? List.length srcs)%nat
             then Js.includes srcs (sourceKey article)
             else true
         | None => true
         end
  end.

(** An article whose [publishedAt] is a valid date. *)
Definition hasValidDate (a : Article.t) : Prop :=
  exists t : Z, Article.publishedAt a = ValidDate t.

(** The order of the result of [getArticles]: newest first. Two articles stand
    in it when both dates are valid and the second is not later than the
    first. *)
Definition newestFirst (a b : Article.t) : Prop :=
  match Article.publishedAt a, Article.publishedAt b with
  | ValidDate ta, ValidDate tb => (tb <= ta)%Z
  | _, _ => False
  end.

(** The records published at time [t]. *)
Definition publishedOn (t : Z) (a : Article.t) : bool :=
  match Article.publishedAt a with
  | ValidDate ta => (ta =? t)%Z
  | InvalidDate => false
  end.

(** What it is for a record to pass a filter, said without the code: a
    [country] or [category] of the filter that is not the empty string is the
    record's; and when the filter names sources, the list holds the name of
    the record's source if that name is not empty, and the [id] of the source
    if the source has no name or an empty one. *)
Definition passes (filters : option ArticleFilters.t) (a : Article.t) : Prop :=
  match filters with
  | None => True
  | Some f =>
      (forall c, ArticleFilters.country f = Some c -> c <> "" -> Article.country a = Some c)
      /\ (forall c, ArticleFilters.category f = Some c -> c <> "" ->
                    Article.category a = Some c)
      /\ (forall srcs, ArticleFilters.sources f = Some srcs -> srcs <> [] ->
            exists src,
              Article.source a = Some src
              /\ ((exists n, Source.name src = Some n /\ n <> "" /\ In n srcs)
                  \/ ((Source.name src = None \/ Source.name src = Some "")
                      /\ exists i, Source.id src = Some i /\ In i srcs)))
  end.

(** The matching as the specification words it: exact equality on [country]
    and on [category] when the filter gives them, and for [sources] the
    membership of the record's [source.name] or of its [source.id], either
    one. *)
Definition specMatches (f : ArticleFilters.t) (a : Article.t) : Prop :=
  (forall c, ArticleFilters.country f = Some c -> Article.country a = Some c)
  /\ (forall c, ArticleFilters.category f = Some c -> Article.category a = Some c)
  /\ (forall srcs, ArticleFilters.sources f = Some srcs ->
        exists src,
          Article.source a = Some src
          /\ ((exists n, Source.name src = Some n /\ In n srcs)
              \/ (exists i, Source.id src = Some i /\ In i srcs))).

(** A filter that names sources only: [{ sources }]. *)
Definition sourcesOnly (srcs : list string) : option ArticleFilters.t :=
  Some (ArticleFilters.mk None None (Some srcs)).

(** Requests that leave the identity of the record stored under [k] alone: a
    creation draws another identifier, an update names neither [id] nor
    [createdAt]. *)
Definition keepsIdentity (k : string) (op : StoreOp) : Prop :=
  match op with
  | OpCreate uuid _ _ => uuid <> k
  | OpUpdate _ updates =>
      PartialArticle.id updates = None /\ PartialArticle.createdAt updates = None
  end.

(* ===================================================================== *)
(** * server/services/openaiService.ts: GeminiService                     *)
(* ===================================================================== *)

(** What [await this.ai.models.generateContent(...)] does: it throws (a
    transport error, a timeout of the client, a refusal), or it yields a
    response whose [text] may be [undefined]. *)
Inductive EngineOutcome : Type :=
| EngineThrows
| EngineResponds (text : option string).

Module GeminiService.
Record t : Type := mk {
  generateContent : string -> string -> EngineOutcome
}.
End GeminiService.

Inductive SummaryLength : Type := short | medium | long.

Definition lengthInstructions (l : SummaryLength) : string :=
  match l with
  | short => "Summarize in 1-2 concise sentences"
  | medium => "Summarize in 3-4 sentences with key details"
  | long => "Summarize in 5-6 sentences with comprehensive details"
  end.

Definition fallbackSummary : string := "Summary unavailable due to processing error".
Definition emptySummary : string := "Unable to generate summary".

(** [response.text?.trim() || orElse]. *)
Definition textOr (text : option string) (orElse : string) : string :=
  Js.orStr (option_map Js.trim text) orElse.

(** The prompt of [summarizeArticle]. *)
Definition summarizePrompt (title content : string) (l : SummaryLength) : string :=
  lengthInstructions l
  ++ " the following news article while maintaining the key points and important information:"
  ++ Js.nl ++ Js.nl
  ++ "Title: " ++ title ++ Js.nl
  ++ "Content: " ++ Js.orStr (Some content) "No content available" ++ Js.nl ++ Js.nl
  ++ "Please provide a clear, informative summary that captures the essence of the article.".

(** [summarizeArticle(title, content, summaryLength = "medium")]. *)
Definition summarizeArticle (svc : GeminiService.t) (title content : string)
    (summaryLength : option SummaryLength) : string :=
  let l := match summaryLength with Some l => l | None => medium end in
  match GeminiService.generateContent svc "gemini-2.5-flash" (summarizePrompt title content l) with
  | EngineResponds text => textOr text emptySummary
  | EngineThrows => fallbackSummary
  end.

(** An element of the [articles] argument of [generateTopicSummary]. *)
Module TopicArticle.
Record t : Type := mk {
  title : string;
  content : string;
  description : option string;
  url : string;
  source : option Source.t
}.
End TopicArticle.

Module SourceLink.
Record t : Type := mk {
  title : string;
  url : string;
  source : string
}.
End SourceLink.

Module TopicSummary.
Record t : Type := mk {
  summary : string;
  sourceLinks : list SourceLink.t
}.
End TopicSummary.

(** [article.source?.name]. *)
Definition sourceName (source : option Source.t) : option string :=
  match source with
  | Some src => Source.name src
  | None => None
  end.

(** [arr.map((x, index) => f(x, index))], counting from [index]. *)
Fixpoint mapi {A B : Type} (f : A -> nat -> B) (index : nat) (arr : list A) : list B :=
  match arr with
  | [] => []
  | x :: rest => f x index :: mapi f (S index) rest
  end.

Definition articleText (article : TopicArticle.t) (index : nat) : string :=
  "Article " ++ Js.natToString (index + 1) ++ ": " ++ TopicArticle.title article ++ Js.nl
  ++ "Source: " ++ Js.orStr (sourceName (TopicArticle.source article)) "Unknown" ++ Js.nl
  ++ "Content: "
  ++ Js.orStr (Js.or (Some (TopicArticle.content article)) (TopicArticle.description article))
       "No content available" ++ Js.nl
  ++ "URL: " ++ TopicArticle.url article ++ Js.nl
  ++ "---".

Definition topicPrompt (topic : string) (articles : list TopicArticle.t) : string :=
  let articleTexts := Js.join (Js.nl ++ Js.nl) (mapi articleText 0 articles) in
  let quoted := Js.dq ++ topic ++ Js.dq in
  "You are a news analyst. Based on the following articles about " ++ quoted
  ++ ", provide a comprehensive summary that:" ++ Js.nl ++ Js.nl
  ++ "1. Gives an overview of the current situation regarding " ++ quoted ++ Js.nl
  ++ "2. Highlights key developments, facts, and trends" ++ Js.nl
  ++ "3. Mentions different perspectives or viewpoints if present" ++ Js.nl
  ++ "4. Organizes information in a clear, informative manner" ++ Js.nl ++ Js.nl
  ++ "Here are the articles:" ++ Js.nl ++ Js.nl
  ++ articleTexts ++ Js.nl ++ Js.nl
  ++ "Please provide a well-structured summary that captures the essence of what's happening with "
  ++ quoted
  ++ " based on these sources. Make it informative and comprehensive while being concise.".

(** [generateTopicSummary(topic, articles)]: the [try] block and its [catch]. *)
Definition generateTopicSummary (svc : GeminiService.t) (topic : string)
    (articles : list TopicArticle.t) : TopicSummary.t :=
  match GeminiService.generateContent svc "gemini-2.5-pro" (topicPrompt topic articles) with
  | EngineResponds text =>
      let summary := textOr text "Unable to generate topic summary" in
      let sourceLinks :=
        map (fun article =>
               SourceLink.mk (TopicArticle.title article) (TopicArticle.url article)
                 (Js.orStr (sourceName (TopicArticle.source article)) "Unknown Source"))
            articles in
      TopicSummary.mk summary sourceLinks
  | EngineThrows =>
      TopicSummary.mk "Unable to generate topic summary due to processing error"
        (map (fun article =>
                SourceLink.mk (TopicArticle.title article) (TopicArticle.url article)
                  (Js.orStr (sourceName (TopicArticle.source article)) "Unknown Source"))
             articles)
  end.

(** The citation of an article as the specification words it: its title, its
    url, and the name of its source or "Unknown Source". *)
Definition citation (article : TopicArticle.t) : SourceLink.t :=
  SourceLink.mk (TopicArticle.title article) (TopicArticle.url article)
    (match TopicArticle.source article with
     | Some src =>
         match Source.name src with
         | Some n => if n =? "" then "Unknown Source" else n
         | None => "Unknown Source"
         end
     | None => "Unknown Source"
     end).

(* ===================================================================== *)
(** * server/routes.ts: POST /api/summarize-article/:id                   *)
(* ===================================================================== *)

Inductive ResponseBody : Type :=
| Message (message : string)
| ArticleAndSummary (article : Article.t) (summary : string).

Module Response.
Record t : Type := mk {
  status : nat;
  body : ResponseBody
}.
End Response.

(** The handler, from the service of [registerRoutes] ([None] when its
    constructor threw), the request ([req.params.id], [req.body.summaryLength])
    and the store, to the response and the store after the request. The
    [summaryLength] of the body is taken at the type [summarizeArticle]
    declares for it. *)
Definition summarizeArticleRoute (geminiService : option GeminiService.t)
    (id : string) (summaryLength : option SummaryLength) (storage : MemStorage)
  : Response.t * MemStorage :=
  match geminiService with
  | None =>
      (Response.mk 500
         (Message "Gemini service not available. Please check GEMINI_API_KEY environment variable."),
       storage)
  | Some svc =>
      let articles := getArticles None storage in
      match find (fun a => Article.id a =? id) articles with
      | None => (Response.mk 404 (Message "Article not found"), storage)
      | Some article =>
          let summary :=
            summarizeArticle svc (Article.title article)
              (Js.orStr (Js.or (Article.content article) (Article.description article)) "")
              summaryLength in
          match updateArticle id (PartialArticle.ofAiSummary summary) storage with
          | Ok (updatedArticle, storage') =>
              (Response.mk 200 (ArticleAndSummary updatedArticle summary), storage')
          | Throw message => (Response.mk 500 (Message message), storage)
          end
      end
  end.

(** The summary [summarizeArticle] makes of an outcome of the engine. *)
Definition summaryOf (outcome : EngineOutcome) : string :=
  match outcome with
  | EngineThrows => fallbackSummary
  | EngineResponds None => emptySummary
  | EngineResponds (Some text) =>
      if Js.trim text =? "" then emptySummary else Js.trim text
  end.

(** The failures of the engine the specification lists: a timeout or a
    transport error (the call throws), or an empty response. *)
Definition engineFails (outcome : EngineOutcome) : Prop :=
  match outcome with
  | EngineThrows => True
  | EngineResponds None => True
  | EngineResponds (Some text) => Js.trim text = ""
  end.

(** The call of the engine that the route makes for a stored article. *)
Definition outcomeFor (svc : GeminiService.t) (article : Article.t)
    (summaryLength : option SummaryLength) : EngineOutcome :=
  GeminiService.generateContent svc "gemini-2.5-flash"
    (summarizePrompt (Article.title article)
       (Js.orStr (Js.or (Article.content article) (Article.description article)) "")
       (match summaryLength with Some l => l | None => medium end)).

(* ===================================================================== *)
(** * shared/schema.ts: newsFiltersSchema                                 *)
(* ===================================================================== *)

(** An item of an array of [req.query]: a string, or something nested. *)
Inductive QueryItem : Type :=
| IString (s : string)
| INested.

(** A value of [req.query]: a string, an array, or a nested object. *)
Inductive QueryValue : Type :=
| QString (s : string)
| QArray (items : list QueryItem)
| QObject.

(** [req.query], as far as the schema reads it; [None] is an absent key. *)
Module Query.
Record t : Type := mk {
  country : option QueryValue;
  category : option QueryValue;
  sources : option QueryValue;
  q : option QueryValue;
  from : option QueryValue;
  to : option QueryValue;
  sortBy : option QueryValue;
  pageSize : option QueryValue;
  page : option QueryValue
}.

(** A request without query string. *)
Definition empty : t := mk None None None None None None None None None.
End Query.

Inductive SortBy : Type := relevancy | popularity | publishedAt.

(** [NewsFilters = z.infer<typeof newsFiltersSchema>]. *)
Module NewsFilters.
Record t : Type := mk {
  country : option string;
  category : option string;
  sources : option (list string);
  q : option string;
  from : option string;
  to : option string;
  sortBy : option SortBy;
  pageSize : option Js.number;
  page : option Js.number
}.

(** The object literal [{}]. *)
Definition empty : t := mk None None None None None None None None None.
End NewsFilters.

(** An issue of a [ZodError]: the key it is about and its code. *)
Module ZodIssue.
Record t : Type := mk {
  path : string;
  code : string
}.
End ZodIssue.

(** [schema.parse(data)] returns the data or throws a [ZodError]. *)
Inductive Parsed (A : Type) : Type :=
| Valid (data : A)
| ZodError (issues : list ZodIssue.t).
Arguments Valid {A} data.
Arguments ZodError {A} issues.

(** [val.split(',')]. *)
Fixpoint split (sep : ascii) (val : string) : list string :=
  match val with
  | EmptyString => [EmptyString]
  | String c rest =>
      if Ascii.eqb c sep then EmptyString :: split sep rest
      else match split sep rest with
           | head :: tail => String c head :: tail
           | [] => [String c EmptyString]
           end
  end.

(** The strings of an array whose items are all strings. *)
Fixpoint allStrings (items : list QueryItem) : option (list string) :=
  match items with
  | [] => Some []
  | IString s :: rest => option_map (cons s) (allStrings rest)
  | INested :: _ => None
  end.

Section Schema.

(** [Number(value)], the coercion of [z.coerce.number()]: a built-in of the
    language. *)
Variable Number : QueryValue -> Js.number.

(** [z.string().optional()] at key [path]. *)
Definition zStringOptional (path : string) (v : option QueryValue)
  : ZodIssue.t + option string :=
  match v with
  | None => inr None
  | Some (QString s) => inr (Some s)
  | Some _ => inl (ZodIssue.mk path "invalid_type")
  end.

(** [z.union([z.array(z.string()),
              z.string().transform(val => val.split(',').filter(s => s.trim() !== ''))])
      .optional()]. *)
Definition zSources (v : option QueryValue) : ZodIssue.t + option (list string) :=
  match v with
  | None => inr None
  | Some (QArray items) =>
      match allStrings items with
      | Some l => inr (Some l)
      | None => inl (ZodIssue.mk "sources" "invalid_union")
      end
  | Some (QString val) =>
      inr (Some (filter (fun s => negb (Js.trim s =? "")) (split "," val)))
  | Some QObject => inl (ZodIssue.mk "sources" "invalid_union")
  end.

(** [z.enum(["relevancy", "popularity", "publishedAt"]).optional()]. *)
Definition zSortBy (v : option QueryValue) : ZodIssue.t + option SortBy :=
  match v with
  | None => inr None
  | Some (QString s) =>
      if s =? "relevancy" then inr (Some relevancy)
      else if s =? "popularity" then inr (Some popularity)
      else if s =? "publishedAt" then inr (Some publishedAt)
      else inl (ZodIssue.mk "sortBy" "invalid_enum_value")
  | Some _ => inl (ZodIssue.mk "sortBy" "invalid_type")
  end.

(** [z.coerce.number().min(1).max(100).optional()]: an absent key stays
    absent; a present value is coerced, [NaN] is no number, and the value
    itself is kept when it passes the bounds. *)
Definition zPageSize (v : option QueryValue) : ZodIssue.t + option Js.number :=
  match v with
  | None => inr None
  | Some raw =>
      match Number raw with
      | Js.NaN => inl (ZodIssue.mk "pageSize" "invalid_type")
      | n =>
          if negb (Js.geb n 1%Q) then inl (ZodIssue.mk "pageSize" "too_small")
          else if negb (Js.leb n 100%Q) then inl (ZodIssue.mk "pageSize" "too_big")
          else inr (Some n)
      end
  end.

(** [z.coerce.number().min(1).optional()]. *)
Definition zPage (v : option QueryValue) : ZodIssue.t + option Js.number :=
  match v with
  | None => inr None
  | Some raw =>
      match Number raw with
      | Js.NaN => inl (ZodIssue.mk "page" "invalid_type")
      | n =>
          if negb (Js.geb n 1%Q) then inl (ZodIssue.mk "page" "too_small")
          else inr (Some n)
      end
  end.

Definition issuesOf {A : Type} (r : ZodIssue.t + A) : list ZodIssue.t :=
  match r with
  | inl issue => [issue]
  | inr _ => []
  end.

(** [newsFiltersSchema.parse(req.query)]: every key is checked, and the
    issues of all keys are reported together. *)
Definition newsFiltersSchema_parse (query : Query.t) : Parsed NewsFilters.t :=
  let country := zStringOptional "country" (Query.country query) in
  let category := zStringOptional "category" (Query.category query) in
  let sources := zSources (Query.sources query) in
  let q := zStringOptional "q" (Query.q query) in
  let from := zStringOptional "from" (Query.from query) in
  let to := zStringOptional "to" (Query.to query) in
  let sortBy := zSortBy (Query.sortBy query) in
  let pageSize := zPageSize (Query.pageSize query) in
  let page := zPage (Query.page query) in
  match country, category, sources, q, from, to, sortBy, pageSize, page with
  | inr country', inr category', inr sources', inr q', inr from', inr to',
    inr sortBy', inr pageSize', inr page' =>
      Valid (NewsFilters.mk country' category' sources' q' from' to' sortBy' pageSize' page')
  | _, _, _, _, _, _, _, _, _ =>
      ZodError (issuesOf country ++ issuesOf category ++ issuesOf sources ++ issuesOf q
                ++ issuesOf from ++ issuesOf to ++ issuesOf sortBy ++ issuesOf pageSize
                ++ issuesOf page)%list
  end.

End Schema.

(** A coercion for the examples: it agrees with [Number] on the strings of
    decimal digits, which it reads as the integer they write. *)
Fixpoint digitsValue (acc : Z) (s : string) : option Z :=
  match s with
  | EmptyString => Some acc
  | String c rest =>
      let n := nat_of_ascii c in
      if ((48 <=? n)%nat && (n <=? 57)%nat)%bool
      then digitsValue (10 * acc + Z.of_nat (n - 48))%Z rest
      else None
  end.

Definition NumberOfDigits (v : QueryValue) : Js.number :=
  match v with
  | QString (String c rest) =>
      match digitsValue 0%Z (String c rest) with
      | Some z => Js.Finite (inject_Z z)
      | None => Js.NaN
      end
  | _ => Js.NaN
  end.

(* ===================================================================== *)
(** * server/services/newsService.ts: NewsService                         *)
(* ===================================================================== *)

(** A [URLSearchParams]: name/value pairs in order. *)
Module URLSearchParams.

Definition t : Type := list (string * string).

Definition empty : t := [].

(** [params.get(name)]: the first value of that name. *)
Fixpoint get (name : string) (params : t) : option string :=
  match params with
  | [] => None
  | (n, v) :: rest => if n =? name then Some v else get name rest
  end.

Definition remove (name : string) (params : t) : t :=
  filter (fun p => negb (fst p =? name)) params.

(** [params.set(name, value)]: the first pair of that name takes the value
    and the others go; without one, the pair is appended. *)
Fixpoint set (name value : string) (params : t) : t :=
  match params with
  | [] => [(name, value)]
  | (n, v) :: rest =>
      if n =? name then (name, value) :: remove name rest
      else (n, v) :: set name value rest
  end.

(** [params.has(name)]. *)
Definition has (name : string) (params : t) : bool :=
  existsb (fun p => fst p =? name) params.

End URLSearchParams.

Definition sortByToString (s : SortBy) : string :=
  match s with
  | relevancy => "relevancy"
  | popularity => "popularity"
  | publishedAt => "publishedAt"
  end.

Section NewsService.

(** [n.toString()] on a number: a built-in of the language. *)
Variable numberToString : Js.number -> string.

(** [if (value) params.set(name, value)] for a string that may be absent. *)
Definition setIfTruthy (name : string) (value : option string)
    (params : URLSearchParams.t) : URLSearchParams.t :=
  match value with
  | Some v => if Js.truthyStr v then URLSearchParams.set name v params else params
  | None => params
  end.

(** [if (filters.sources && filters.sources.length > 0)
       params.set('sources', filters.sources.join(','))]. *)
Definition setSources (sources : option (list string))
    (params : URLSearchParams.t) : URLSearchParams.t :=
  match sources with
  | Some l =>
      if (0 <? List.length l)%nat then URLSearchParams.set "sources" (Js.join "," l) params
      else params
  | None => params
  end.

(** [if (n) params.set(name, n.toString())] for a number that may be absent. *)
Definition setNumber (name : string) (n : option Js.number)
    (params : URLSearchParams.t) : URLSearchParams.t :=
  match n with
  | Some v =>
      if Js.truthyNum v then URLSearchParams.set name (numberToString v) params else params
  | None => params
  end.

(** [!filters.sources]: an array, even an empty one, is truthy. *)
Definition sourcesFalsy (sources : option (list string)) : bool :=
  match sources with
  | Some _ => false
  | None => true
  end.

(** The [params] of the request that [fetchTopHeadlines(filters)] sends to
    [/top-headlines]. *)
Definition fetchTopHeadlines (filters : NewsFilters.t) : URLSearchParams.t :=
  let params := URLSearchParams.empty in
  let params := setIfTruthy "country" (NewsFilters.country filters) params in
  let params := setIfTruthy "category" (NewsFilters.category filters) params in
  let params := setSources (NewsFilters.sources filters) params in
  let params := setIfTruthy "q" (NewsFilters.q filters) params in
  let params := setNumber "pageSize" (NewsFilters.pageSize filters) params in
  let params := setNumber "page" (NewsFilters.page filters) params in
  if sourcesFalsy (NewsFilters.sources filters)
     && negb (Js.truthy (NewsFilters.country filters))
  then URLSearchParams.set "country" "us" params
  else params.

(** [!filters.sources || filters.sources.length === 0]. *)
Definition sourcesFalsyOrEmpty (sources : option (list string)) : bool :=
  match sources with
  | Some l => (List.length l =? 0)%nat
  | None => true
  end.

(** The [params] of the request that [searchEverything(filters)] sends to
    [/everything]. *)
Definition searchEverything (filters : NewsFilters.t) : URLSearchParams.t :=
  let params := URLSearchParams.empty in
  let params := setIfTruthy "q" (NewsFilters.q filters) params in
  let params := setSources (NewsFilters.sources filters) params in
  let params := setIfTruthy "from" (NewsFilters.from filters) params in
  let params := setIfTruthy "to" (NewsFilters.to filters) params in
  let params :=
    setIfTruthy "sortBy" (option_map sortByToString (NewsFilters.sortBy filters)) params in
  let params := setNumber "pageSize" (NewsFilters.pageSize filters) params in
  let params := setNumber "page" (NewsFilters.page filters) params in
  if negb (Js.truthy (NewsFilters.q filters))
     && sourcesFalsyOrEmpty (NewsFilters.sources filters)
  then URLSearchParams.set "q" "technology" params
  else params.

End NewsService.

(* ===================================================================== *)
(** * The voice search hook: useVoiceSearch                               *)
(* ===================================================================== *)

Definition prefixes : list string :=
  ["search for"; "find"; "show me"; "get"; "look for"; "filter"].

(** The [for (const prefix of prefixes)] loop with its [break]: the value of
    [searchQuery] after it, from the value before it. *)
Fixpoint stripPrefix (command lowerCommand : string) (remaining : list string)
    (searchQuery : string) : string :=
  match remaining with
  | [] => searchQuery
  | prefix :: rest =>
      if Js.startsWith lowerCommand prefix
      then Js.trim (Js.substring (String.length prefix) command)
      else stripPrefix command lowerCommand rest searchQuery
  end.

(** The value of [searchQuery] when [processVoiceCommand(command)] reaches its
    last statement. *)
Definition searchQueryOf (command : string) : string :=
  let lowerCommand := Js.toLowerCase command in
  stripPrefix command lowerCommand prefixes command.

(** [processVoiceCommand(command)]: the argument [onSearch] is called with, or
    [None] when it is not called. [onSearch] tells whether the option was set. *)
Definition processVoiceCommand (onSearch : bool) (command : string) : option string :=
  let searchQuery := searchQueryOf command in
  if onSearch && Js.truthyStr searchQuery then Some searchQuery else None.

(** A result of the speech recognition. *)
Module SpeechResult.
Record t : Type := mk {
  transcript : string;
  isFinal : bool
}.
End SpeechResult.

(** The [onResult] handler of [useVoiceSearch]: the call of [onSearch] it leads
    to, if any. *)
Definition onResult (onSearch : bool) (result : SpeechResult.t) : option string :=
  if SpeechResult.isFinal result && Js.truthyStr (Js.trim (SpeechResult.transcript result))
  then processVoiceCommand onSearch (Js.trim (SpeechResult.transcript result))
  else None.


(* ===================================================================== *)
(** * server/storage.ts: users and user preferences                       *)
(* ===================================================================== *)

Module User.
Record t : Type := mk {
  id : string;
  username : string;
  password : string
}.
End User.

Module InsertUser.
Record t : Type := mk {
  username : string;
  password : string
}.
End InsertUser.

(** The [users] map of [MemStorage]. *)
Definition Users : Type := JsMap.t User.t.

(** [getUser(id)]. *)
Definition getUser (id : string) (users : Users) : option User.t :=
  JsMap.get id users.

(** [getUserByUsername(username)]. *)
Definition getUserByUsername (username : string) (users : Users) : option User.t :=
  find (fun user => User.username user =? username) (JsMap.values users).

(** [createUser(insertUser)], with the identifier drawn by [randomUUID()]. *)
Definition createUser (uuid : string) (insertUser : InsertUser.t) (users : Users)
  : User.t * Users :=
  let user := User.mk uuid (InsertUser.username insertUser) (InsertUser.password insertUser) in
  (user, JsMap.set uuid user users).

(** [UserPreferences]: the columns other than [id] may be [null]; the JSON
    column [preferredSources] holds a value of a type [Json] left open. *)
Module UserPreferences.
Record t (Json : Type) : Type := mk {
  id : string;
  userId : option string;
  preferredSources : option Json;
  autoSummarize : option bool;
  summaryLength : option string;
  voiceSearchEnabled : option bool;
  voiceLanguage : option string
}.
Arguments mk {Json}.
Arguments id {Json}.
Arguments userId {Json}.
Arguments preferredSources {Json}.
Arguments autoSummarize {Json}.
Arguments summaryLength {Json}.
Arguments voiceSearchEnabled {Json}.
Arguments voiceLanguage {Json}.
End UserPreferences.

(** [InsertUserPreferences]: the preferences without [id]. *)
Module InsertUserPreferences.
Record t (Json : Type) : Type := mk {
  userId : option string;
  preferredSources : option Json;
  autoSummarize : option bool;
  summaryLength : option string;
  voiceSearchEnabled : option bool;
  voiceLanguage : option string
}.
Arguments mk {Json}.
Arguments userId {Json}.
Arguments preferredSources {Json}.
Arguments autoSummarize {Json}.
Arguments summaryLength {Json}.
Arguments voiceSearchEnabled {Json}.
Arguments voiceLanguage {Json}.
End InsertUserPreferences.

(** [Partial<UserPreferences>]: [None] is an absent property. *)
Module PartialUserPreferences.
Record t (Json : Type) : Type := mk {
  id : option string;
  userId : option (option string);
  preferredSources : option (option Json);
  autoSummarize : option (option bool);
  summaryLength : option (option string);
  voiceSearchEnabled : option (option bool);
  voiceLanguage : option (option string)
}.
Arguments mk {Json}.
Arguments id {Json}.
Arguments userId {Json}.
Arguments preferredSources {Json}.
Arguments autoSummarize {Json}.
Arguments summaryLength {Json}.
Arguments voiceSearchEnabled {Json}.
Arguments voiceLanguage {Json}.
End PartialUserPreferences.

Section Preferences.
Context {Json : Type}.

(** The [userPreferences] map of [MemStorage]. *)
Definition Preferences : Type := JsMap.t (UserPreferences.t Json).

(** [prefs.userId === userId]. *)
Definition ofUser (userId : string) (prefs : UserPreferences.t Json) : bool :=
  strictEq (UserPreferences.userId prefs) userId.

(** [getUserPreferences(userId)]. *)
Definition getUserPreferences (userId : string) (store : Preferences)
  : option (UserPreferences.t Json) :=
  find (ofUser userId) (JsMap.values store).

(** [createUserPreferences(insertPrefs)], with the identifier drawn by
    [randomUUID()]. *)
Definition createUserPreferences (uuid : string) (insertPrefs : InsertUserPreferences.t Json)
    (store : Preferences) : UserPreferences.t Json * Preferences :=
  let prefs :=
    UserPreferences.mk uuid
      (InsertUserPreferences.userId insertPrefs)
      (InsertUserPreferences.preferredSources insertPrefs)
      (InsertUserPreferences.autoSummarize insertPrefs)
      (InsertUserPreferences.summaryLength insertPrefs)
      (InsertUserPreferences.voiceSearchEnabled insertPrefs)
      (InsertUserPreferences.voiceLanguage insertPrefs) in
  (prefs, JsMap.set uuid prefs store).

(** [{ ...existing, ...updates }] on preferences. *)
Definition mergePreferences (existing : UserPreferences.t Json)
    (updates : PartialUserPreferences.t Json) : UserPreferences.t Json :=
  UserPreferences.mk
    (spread (UserPreferences.id existing) (PartialUserPreferences.id updates))
    (spread (UserPreferences.userId existing) (PartialUserPreferences.userId updates))
    (spread (UserPreferences.preferredSources existing)
       (PartialUserPreferences.preferredSources updates))
    (spread (UserPreferences.autoSummarize existing)
       (PartialUserPreferences.autoSummarize updates))
    (spread (UserPreferences.summaryLength existing)
       (PartialUserPreferences.summaryLength updates))
    (spread (UserPreferences.voiceSearchEnabled existing)
       (PartialUserPreferences.voiceSearchEnabled updates))
    (spread (UserPreferences.voiceLanguage existing)
       (PartialUserPreferences.voiceLanguage updates)).

(** [updateUserPreferences(userId, updates)]: the record is looked up by its
    [userId] and stored back under its [id]. *)
Definition updateUserPreferences (userId : string) (updates : PartialUserPreferences.t Json)
    (store : Preferences) : result (UserPreferences.t Json * Preferences) :=
  match find (ofUser userId) (JsMap.values store) with
  | None => Throw ("User preferences for user " ++ userId ++ " not found")
  | Some existing =>
      let updated := mergePreferences existing updates in
      Ok (updated, JsMap.set (UserPreferences.id existing) updated store)
  end.

(** A preferences map whose records are stored under their own [id]s. *)
Definition keyedPreferences (store : Preferences) : Prop :=
  NoDup (JsMap.keys store) /\ forall k p, In (k, p) store -> UserPreferences.id p = k.

End Preferences.
Arguments Preferences : clear implicits.

(* ===================================================================== *)
(** * server/services/openaiService.ts: summarizeArticles                 *)
(* ===================================================================== *)

(** An article of a [SummarizeRequest]. *)
Module RequestArticle.
Record t : Type := mk {
  title : string;
  content : string;
  description : option string
}.
End RequestArticle.

(** [SummarizeRequest = z.infer<typeof summarizeRequestSchema>]. *)
Module SummarizeRequest.
Record t : Type := mk {
  articles : list RequestArticle.t;
  summaryLength : option SummaryLength
}.
End SummarizeRequest.

(** The prompt of the loop of [summarizeArticles]. *)
Definition batchPrompt (article : RequestArticle.t) (l : SummaryLength) : string :=
  lengthInstructions l
  ++ " the following news article while maintaining the key points and important information:"
  ++ Js.nl ++ Js.nl
  ++ "Title: " ++ RequestArticle.title article ++ Js.nl
  ++ "Content: "
  ++ Js.orStr (Js.or (Some (RequestArticle.content article)) (RequestArticle.description article))
       "No content available"
  ++ Js.nl ++ Js.nl
  ++ "Please provide a clear, informative summary that captures the essence of the article.".

(** The [for (const article of articles)] loop of [summarizeArticles]: the
    array [summaries] after it, from the array before it. Each turn has its
    own [try] and [catch]. *)
Fixpoint summarizeLoop (svc : GeminiService.t) (l : SummaryLength)
    (articles : list RequestArticle.t) (summaries : list string) : list string :=
  match articles with
  | [] => summaries
  | article :: rest =>
      let summaries :=
        match GeminiService.generateContent svc "gemini-2.5-flash" (batchPrompt article l) with
        | EngineResponds text =>
            (summaries ++ [textOr text "Unable to generate summary"])%list
        | EngineThrows =>
            (summaries ++ ["Summary unavailable due to processing error"])%list
        end in
      summarizeLoop svc l rest summaries
  end.

(** [summarizeArticles(request)]. *)
Definition summarizeArticles (svc : GeminiService.t) (request : SummarizeRequest.t)
  : list string :=
  let l := match SummarizeRequest.summaryLength request with Some l => l | None => medium end in
  summarizeLoop svc l (SummarizeRequest.articles request) [].

(* ===================================================================== *)
(** * server/services/newsService.ts: the calls of the provider           *)
(* ===================================================================== *)

Module NewsAPISource.
Record t : Type := mk {
  id : option string;
  name : string
}.
End NewsAPISource.

Module NewsAPIArticle.
Record t : Type := mk {
  source : NewsAPISource.t;
  author : option string;
  title : string;
  description : option string;
  url : string;
  urlToImage : option string;
  publishedAt : string;
  content : option string
}.
End NewsAPIArticle.

(** The JSON of a response, at the type [NewsAPIResponse] that the service
    declares for it: [articles] is an array of articles. The service does not
    check the JSON against this type. *)
Module NewsAPIResponse.
Record t : Type := mk {
  status : string;
  totalResults : Js.number;
  articles : list NewsAPIArticle.t
}.
End NewsAPIResponse.

(** What [await fetch(url, ...)] and the reading of the response come to: a
    rejection (of [fetch], [response.text()] or [response.json()], with the
    message of its [Error]), a response that is not [ok] with its status and
    text, or the JSON of a response that is. *)
Inductive FetchOutcome : Type :=
| FetchRejects (message : string)
| FetchNotOk (status : nat) (errorText : string)
| FetchOk (response : NewsAPIResponse.t).

(** The provider: from the path under [baseUrl] and the parameters of the
    request to the outcome of the fetch. *)
Definition Provider : Type := string -> URLSearchParams.t -> FetchOutcome.

(** The end of [fetchTopHeadlines] and of [searchEverything]: the fetch, the
    test of [response.ok], and [response.json()]. *)
Definition callProvider (provider : Provider) (path : string) (params : URLSearchParams.t)
  : result NewsAPIResponse.t :=
  match provider path params with
  | FetchRejects message => Throw message
  | FetchNotOk status errorText =>
      Throw ("News API error (" ++ Js.natToString status ++ "): " ++ errorText)
  | FetchOk response => Ok response
  end.

(* ===================================================================== *)
(** * server/routes.ts: GET /api/news and GET /api/news/search            *)
(* ===================================================================== *)

(** The body of a response of the two routes: a message, the message of a
    [ZodError] (which renders its issues), or the result. *)
Inductive NewsBody : Type :=
| NewsMessage (message : string)
| NewsInvalid (issues : list ZodIssue.t)
| NewsResult (status : string) (totalResults : Js.number) (articles : list Article.t).

Section NewsRoutes.

Variable Number : QueryValue -> Js.number.
Variable numberToString : Js.number -> string.

(** [new Date(apiArticle.publishedAt)]: the date the string writes, or the
    Invalid Date. *)
Variable dateOf : string -> JsDate.

(** The object handed to [storage.createArticle] for an article of the
    provider. *)
Definition toInsertArticle (filters : NewsFilters.t) (apiArticle : NewsAPIArticle.t)
  : InsertArticle.t :=
  InsertArticle.mk
    (NewsAPIArticle.title apiArticle)
    (NewsAPIArticle.description apiArticle)
    (NewsAPIArticle.content apiArticle)
    (NewsAPIArticle.url apiArticle)
    (NewsAPIArticle.urlToImage apiArticle)
    (dateOf (NewsAPIArticle.publishedAt apiArticle))
    (Some (Source.mk (NewsAPISource.id (NewsAPIArticle.source apiArticle))
                     (Some (NewsAPISource.name (NewsAPIArticle.source apiArticle)))))
    (NewsAPIArticle.author apiArticle)
    (Js.or (NewsFilters.category filters) None)
    (Js.or (NewsFilters.country filters) None)
    None.

(** [Promise.all(newsResponse.articles.map(async (apiArticle) => ...))]: the
    articles are created in the order of the array; [randomUUID] and [now]
    give the identifier and the time drawn for the article at each index. *)
Fixpoint storeArticles (randomUUID : nat -> string) (now : nat -> Z) (index : nat)
    (filters : NewsFilters.t) (apiArticles : list NewsAPIArticle.t) (storage : MemStorage)
  : list Article.t * MemStorage :=
  match apiArticles with
  | [] => ([], storage)
  | apiArticle :: rest =>
      let created :=
        createArticle (randomUUID index) (now index) (toInsertArticle filters apiArticle)
          storage in
      let stored := storeArticles randomUUID now (S index) filters rest (snd created) in
      (fst created :: fst stored, snd stored)
  end.

(** The two handlers, which differ in the method of the service they call:
    [request] makes the parameters of the provider request, [path] is its
    path. [newsService] tells whether the service was constructed. *)
Definition newsHandler (request : NewsFilters.t -> URLSearchParams.t) (path : string)
    (newsService : bool) (provider : Provider)
    (randomUUID : nat -> string) (now : nat -> Z)
    (query : Query.t) (storage : MemStorage) : (nat * NewsBody) * MemStorage :=
  if negb newsService
  then ((500, NewsMessage
                "News service not available. Please check NEWS_API_KEY environment variable."),
        storage)
  else
    match newsFiltersSchema_parse Number query with
    | ZodError issues => ((500, NewsInvalid issues), storage)
    | Valid filters =>
        match callProvider provider path (request filters) with
        | Throw message => ((500, NewsMessage message), storage)
        | Ok newsResponse =>
            let stored :=
              storeArticles randomUUID now 0 filters
                (NewsAPIResponse.articles newsResponse) storage in
            ((200, NewsResult (NewsAPIResponse.status newsResponse)
                     (NewsAPIResponse.totalResults newsResponse) (fst stored)),
             snd stored)
        end
    end.

(** GET /api/news. *)
Definition newsRoute : bool -> Provider -> (nat -> string) -> (nat -> Z) -> Query.t ->
    MemStorage -> (nat * NewsBody) * MemStorage :=
  newsHandler (fetchTopHeadlines numberToString) "/top-headlines".

(** GET /api/news/search. *)
Definition newsSearchRoute : bool -> Provider -> (nat -> string) -> (nat -> Z) -> Query.t ->
    MemStorage -> (nat * NewsBody) * MemStorage :=
  newsHandler (searchEverything numberToString) "/everything".

(** A request to one of the routes that write to the store, with what the
    environment does during it. *)
Inductive Request : Type :=
| GetNews (newsService : bool) (provider : Provider)
    (randomUUID : nat -> string) (now : nat -> Z) (query : Query.t)
| GetNewsSearch (newsService : bool) (provider : Provider)
    (randomUUID : nat -> string) (now : nat -> Z) (query : Query.t)
| PostSummarizeArticle (geminiService : option GeminiService.t) (id : string)
    (summaryLength : option SummaryLength).

(** The store after a request. *)
Definition serve (storage : MemStorage) (request : Request) : MemStorage :=
  match request with
  | GetNews newsService provider randomUUID now query =>
      snd (newsRoute newsService provider randomUUID now query storage)
  | GetNewsSearch newsService provider randomUUID now query =>
      snd (newsSearchRoute newsService provider randomUUID now query storage)
  | PostSummarizeArticle geminiService id summaryLength =>
      snd (summarizeArticleRoute geminiService id summaryLength storage)
  end.

(** The store of the process after a sequence of requests: it starts empty. *)
Definition serveAll (requests : list Request) : MemStorage :=
  fold_left serve requests JsMap.empty.

End NewsRoutes.

(** The record the routes store for the article at [index] of a response. *)
Definition storedArticle (dateOf : string -> JsDate) (randomUUID : nat -> string) (now : nat -> Z)
    (filters : NewsFilters.t) (index : nat) (apiArticle : NewsAPIArticle.t) : Article.t :=
  Article.mk (randomUUID index)
    (NewsAPIArticle.title apiArticle)
    (NewsAPIArticle.description apiArticle)
    (NewsAPIArticle.content apiArticle)
    (NewsAPIArticle.url apiArticle)
    (NewsAPIArticle.urlToImage apiArticle)
    (dateOf (NewsAPIArticle.publishedAt apiArticle))
    (Some (Source.mk (NewsAPISource.id (NewsAPIArticle.source apiArticle))
                     (Some (NewsAPISource.name (NewsAPIArticle.source apiArticle)))))
    (NewsAPIArticle.author apiArticle)
    (if Js.truthy (NewsFilters.category filters) then NewsFilters.category filters else None)
    (if Js.truthy (NewsFilters.country filters) then NewsFilters.country filters else None)
    None
    (Some (now index)).

(** Parameters with distinct names, all of them among [allowed]. *)
Definition wellNamed (allowed : list string) (params : URLSearchParams.t) : Prop :=
  NoDup (map fst params) /\ incl (map fst params) allowed.

(** The strings without a comma that are not blank: what [split(',')] and
    the filter of the schema give back as they are. *)
Definition plainSource (s : string) : Prop :=
  ~ In ","%char (list_ascii_of_string s) /\ Js.trim s <> "".

(* ===================================================================== *)
(** * The client: filters of the home page and of the header              *)
(* ===================================================================== *)

(** A value of a property of a filters object on the client. *)
Inductive FilterValue : Type :=
| FUndefined
| FString (s : string)
| FArray (items : list string)
| FNumber (n : Js.number).

(** A filters object: its own properties in the order of their creation. An
    object literal [{ ...o, key: v }] is [JsMap.set key v o]. *)
Definition FilterObject : Type := JsMap.t FilterValue.

(** [o.key]. *)
Definition prop (key : string) (o : FilterObject) : FilterValue :=
  match JsMap.get key o with
  | Some v => v
  | None => FUndefined
  end.

(** [delete o.key]. *)
Definition deleteProp (key : string) (o : FilterObject) : FilterObject :=
  filter (fun p => negb (fst p =? key)) o.

(** Truthiness of a value. *)
Definition truthyValue (v : FilterValue) : bool :=
  match v with
  | FUndefined => false
  | FString s => Js.truthyStr s
  | FArray _ => true
  | FNumber n => Js.truthyNum n
  end.

(** What the user does in the header. [VoiceSearch] is the call of [onSearch]
    by the voice search hook; [SearchSubmit] carries the text of the search
    box when the form is submitted. *)
Inductive HeaderEvent : Type :=
| VoiceSearch (query : string)
| SearchSubmit (searchQuery : string)
| CountryChange (country : string)
| CategoryChange (category : string)
| ClearFilters
| RemoveFilter (filterKey : string).

(** [value || undefined] as the value of a property. *)
Definition orUndefined (value : string) : FilterValue :=
  if Js.truthyStr value then FString value else FUndefined.

(** [removeFilter(filterKey)] of the header: the object it hands on. *)
Definition removeFilter (filterKey : string) (filters : FilterObject) : FilterObject :=
  let newFilters := filters in
  let newFilters := if filterKey =? "country" then deleteProp "country" newFilters
                    else newFilters in
  let newFilters := if filterKey =? "category" then deleteProp "category" newFilters
                    else newFilters in
  if filterKey =? "query" then deleteProp "query" newFilters else newFilters.

(** The object that the header hands to [onFiltersChange] on an event, from
    the [filters] it was rendered with. *)
Definition headerChange (filters : FilterObject) (e : HeaderEvent) : FilterObject :=
  match e with
  | VoiceSearch query => JsMap.set "query" (FString query) filters
  | SearchSubmit searchQuery => JsMap.set "query" (FString searchQuery) filters
  | CountryChange country => JsMap.set "country" (orUndefined country) filters
  | CategoryChange category => JsMap.set "category" (orUndefined category) filters
  | ClearFilters => JsMap.empty
  | RemoveFilter filterKey => removeFilter filterKey filters
  end.

(** The initial [filters] of the home page: [{ pageSize: 20, page: 1 }]. *)
Definition initialFilters : FilterObject :=
  [("pageSize", FNumber (Js.Finite (inject_Z 20))); ("page", FNumber (Js.Finite (inject_Z 1)))].

(** [handleFiltersChange(newFilters)]: the next [filters]. *)
Definition handleFiltersChange (newFilters : FilterObject) : FilterObject :=
  JsMap.set "page" (FNumber (Js.Finite (inject_Z 1)))
    (JsMap.set "pageSize" (FNumber (Js.Finite (inject_Z 20))) newFilters).

(** What happens on the home page: an event of the header, the button that
    clears all filters, the button that loads more. *)
Inductive HomeEvent : Type :=
| FromHeader (e : HeaderEvent)
| ClearAllFilters
| LoadMore.

Section Home.

(** [(page || 1) + 1] as the language evaluates it. *)
Variable nextPage : FilterValue -> FilterValue.

Variable numberToString : Js.number -> string.

(** [handleLoadMore()]: the next [filters] from the previous ones. *)
Definition handleLoadMore (prev : FilterObject) : FilterObject :=
  JsMap.set "page" (nextPage (prop "page" prev)) prev.

(** The [filters] after an event. *)
Definition homeStep (filters : FilterObject) (ev : HomeEvent) : FilterObject :=
  match ev with
  | FromHeader e => handleFiltersChange (headerChange filters e)
  | ClearAllFilters => handleFiltersChange JsMap.empty
  | LoadMore => handleLoadMore filters
  end.

(** The [filters] after a sequence of events on a page just loaded. *)
Definition homeRun (events : list HomeEvent) : FilterObject :=
  fold_left homeStep events initialFilters.

(** [effectiveFilters]: the filters with the preferred sources applied. *)
Definition effectiveFilters (preferredSources : list string) (filters : FilterObject)
  : FilterObject :=
  JsMap.set "sources"
    (if (0 <? List.length preferredSources)%nat then FArray preferredSources
     else prop "sources" filters)
    filters.

(** One turn of the [forEach] of [fetchNews] and [searchNews]: a property that
    is not [undefined] is set as a parameter, an array joined by commas. *)
Definition setEntry (queryParams : URLSearchParams.t) (entry : string * FilterValue)
  : URLSearchParams.t :=
  match snd entry with
  | FUndefined => queryParams
  | FArray items => URLSearchParams.set (fst entry) (Js.join "," items) queryParams
  | FString s => URLSearchParams.set (fst entry) s queryParams
  | FNumber n => URLSearchParams.set (fst entry) (numberToString n) queryParams
  end.

(** The [queryParams] of [fetchNews(filters)] and of [searchNews(filters)]. *)
Definition toQueryParams (filters : FilterObject) : URLSearchParams.t :=
  fold_left setEntry filters URLSearchParams.empty.

(** The request of the client: its path and its parameters. *)
Inductive ApiRequest : Type :=
| Get (path : string) (queryParams : URLSearchParams.t).

(** [fetchNews(filters)]. *)
Definition fetchNews (filters : FilterObject) : ApiRequest :=
  Get "/api/news" (toQueryParams filters).

(** [searchNews(filters)]. *)
Definition searchNews (filters : FilterObject) : ApiRequest :=
  Get "/api/news/search" (toQueryParams filters).

(** The [queryFn] of the home page. *)
Definition queryFn (effective : FilterObject) : ApiRequest :=
  if truthyValue (prop "q" effective) then searchNews effective else fetchNews effective.

End Home.

(** The value a property is sent with, if it is sent. *)
Definition rendered (numberToString : Js.number -> string) (v : FilterValue) : option string :=
  match v with
  | FUndefined => None
  | FString s => Some s
  | FArray items => Some (Js.join "," items)
  | FNumber n => Some (numberToString n)
  end.

(** [handleSummarize(articleId, summary)] of the home page: the next list of
    articles from the previous one. *)
Definition handleSummarize (articleId summary : string) (prev : list Article.t)
  : list Article.t :=
  map (fun article =>
         if Article.id article =? articleId
         then merge article (PartialArticle.ofAiSummary summary)
         else article)
      prev.

(* ===================================================================== *)
(** * The client: preferred sources of the settings                       *)
(* ===================================================================== *)

(** [toggleSource(sourceId)]: the next [preferredSources] from the previous
    ones. *)
Definition toggleSource (sourceId : string) (preferredSources : list string) : list string :=
  if Js.includes preferredSources (Some sourceId)
  then filter (fun id => negb (id =? sourceId)) preferredSources
  else (preferredSources ++ [sourceId])%list.

(* ===================================================================== *)
(** * The client: the speech recognition hook                             *)
(* ===================================================================== *)

(** A result of a recognition event: [result[0].transcript],
    [result[0].confidence] and [result.isFinal]. *)
Module RecognitionResult.
Record t : Type := mk {
  transcript : string;
  confidence : Js.number;
  isFinal : bool
}.
End RecognitionResult.

Module RecognitionEvent.
Record t : Type := mk {
  resultIndex : nat;
  results : list RecognitionResult.t
}.
End RecognitionEvent.

(** The loop of [recognition.onresult] over the results from [resultIndex]
    on: [finalTranscript] and [interimTranscript] after it, from their values
    before it. *)
Fixpoint collectTranscripts (results : list RecognitionResult.t)
    (finalTranscript interimTranscript : string) : string * string :=
  match results with
  | [] => (finalTranscript, interimTranscript)
  | result :: rest =>
      if RecognitionResult.isFinal result
      then collectTranscripts rest
             (finalTranscript ++ RecognitionResult.transcript result) interimTranscript
      else collectTranscripts rest finalTranscript
             (interimTranscript ++ RecognitionResult.transcript result)
  end.

(** [fullTranscript] of [recognition.onresult]. *)
Definition fullTranscript (event : RecognitionEvent.t) : string :=
  let collected :=
    collectTranscripts
      (skipn (RecognitionEvent.resultIndex event) (RecognitionEvent.results event))
      EmptyString EmptyString in
  Js.orStr (Some (fst collected)) (snd collected).

(** [event.results[event.results.length - 1]?.isFinal || false]. *)
Definition lastIsFinal (event : RecognitionEvent.t) : bool :=
  match last (map Some (RecognitionEvent.results event)) None with
  | Some result => RecognitionResult.isFinal result
  | None => false
  end.

(** The object that [recognition.onresult] hands to the [onResult] of the
    voice search hook, as far as that handler reads it. *)
Definition recognized (event : RecognitionEvent.t) : SpeechResult.t :=
  SpeechResult.mk (fullTranscript event) (lastIsFinal event).

(** The call of [onSearch] that a recognition event leads to, if any. *)
Definition voiceSearchOn (onSearch : bool) (event : RecognitionEvent.t) : option string :=
  onResult onSearch (recognized event).

(** The texts of the results that are final, or not, put together. *)
Definition transcriptsOf (final : bool) (results : list RecognitionResult.t) : string :=
  Js.join EmptyString
    (map RecognitionResult.transcript
       (filter (fun r => Bool.eqb (RecognitionResult.isFinal r) final) results)).
(* ===================================================================== *)
(** * Properties                                                          *)
(* ===================================================================== *)

(** ** The stable sort *)

Section SortFacts.
Context {A : Type}.
Variable cmp : A -> A -> Z.

Lemma sortInsert_perm (x : A) (l : list A) :
  Permutation (sortInsert cmp x l) (x :: l).
Proof.
  induction l as [|y l IH]; simpl.
  - apply Permutation_refl.
  - destruct (cmp x y <=? 0)%Z.
    + apply Permutation_refl.
    + eapply perm_trans; [apply perm_skip, IH | apply perm_swap].
Qed.

Lemma sort_perm (l : list A) : Permutation (sort cmp l) l.
Proof.
  induction l as [|x l IH]; simpl.
  - constructor.
  - eapply perm_trans; [apply sortInsert_perm | apply perm_skip, IH].
Qed.

Lemma sort_In (l : list A) (x : A) : In x (sort cmp l) <-> In x l.
Proof.
  split; apply Permutation_in; [| apply Permutation_sym]; apply sort_perm.
Qed.

End SortFacts.

Lemma sortInsert_newestFirst (x : Article.t) (l : list Article.t) :
  hasValidDate x -> Forall hasValidDate l ->
  StronglySorted newestFirst l ->
  StronglySorted newestFirst (sortInsert byPublishedAtDesc x l).
Proof.
  intros [tx Hx] Hvalid Hsorted.
  induction Hsorted as [|y l Hl IH Hy]; simpl.
  - repeat constructor.
  - inversion Hvalid as [|? ? [ty Hty] Hvl]; subst.
    unfold byPublishedAtDesc at 1. rewrite Hx, Hty.
    destruct (Z.leb_spec (ty - tx) 0) as [Hle|Hgt].
    + constructor; [constructor; assumption|].
      constructor; [unfold newestFirst; rewrite Hx, Hty; lia|].
      rewrite Forall_forall in Hy |- *.
      intros z Hz. specialize (Hy z Hz). unfold newestFirst in *.
      rewrite Hx. rewrite Hty in Hy.
      destruct (Article.publishedAt z); [lia | exact Hy].
    + constructor; [apply IH; exact Hvl|].
      rewrite Forall_forall in Hy |- *.
      intros z Hz.
      apply (Permutation_in _ (sortInsert_perm byPublishedAtDesc x l)) in Hz.
      destruct Hz as [<-|Hz]; [unfold newestFirst; rewrite Hx, Hty; lia | auto].
Qed.

Lemma sort_newestFirst (l : list Article.t) :
  Forall hasValidDate l -> StronglySorted newestFirst (sort byPublishedAtDesc l).
Proof.
  induction 1 as [|x l Hx Hl IH]; simpl; [constructor|].
  apply sortInsert_newestFirst; [exact Hx | | exact IH].
  apply (Permutation_Forall (Permutation_sym (sort_perm byPublishedAtDesc l))), Hl.
Qed.

(** Insertion leaves the records of any other timestamp where they are and
    puts the new record in front of those of its own timestamp. *)
Lemma sortInsert_publishedOn (t : Z) (x : Article.t) (l : list Article.t) :
  filter (publishedOn t) (sortInsert byPublishedAtDesc x l)
  = filter (publishedOn t) (x :: l).
Proof.
  induction l as [|y l IH]; [reflexivity|].
  cbn [sortInsert].
  destruct (Z.leb_spec (byPublishedAtDesc x y) 0) as [Hle|Hgt]; [reflexivity|].
  cbn [filter] in *. rewrite IH.
  unfold publishedOn. unfold byPublishedAtDesc in Hgt.
  destruct (Article.publishedAt x) as [tx|], (Article.publishedAt y) as [ty|]; try lia.
  destruct (Z.eqb_spec tx t), (Z.eqb_spec ty t); try reflexivity; lia.
Qed.

Lemma sort_publishedOn (t : Z) (l : list Article.t) :
  filter (publishedOn t) (sort byPublishedAtDesc l) = filter (publishedOn t) l.
Proof.
  induction l as [|x l IH]; [reflexivity|].
  cbn [sort]. rewrite sortInsert_publishedOn. cbn [filter]. now rewrite IH.
Qed.

(** ** getArticles *)

Lemma filter_filter {A : Type} (p q : A -> bool) (l : list A) :
  filter q (filter p l) = filter (fun x => p x && q x) l.
Proof.
  induction l as [|x l IH]; [reflexivity|].
  simpl. destruct (p x); simpl; [destruct (q x)|]; now rewrite IH.
Qed.

Lemma filter_true {A : Type} (l : list A) : filter (fun _ => true) l = l.
Proof. induction l as [|x l IH]; simpl; now rewrite ?IH. Qed.

(** [getArticles] sorts the records its three tests let through. *)
Lemma getArticles_eq (filters : option ArticleFilters.t) (st : MemStorage) :
  getArticles filters st
  = sort byPublishedAtDesc (filter (matches filters) (JsMap.values st)).
Proof.
  unfold getArticles. f_equal.
  set (l := JsMap.values st).
  assert (bare : forall p : Article.t -> bool, (forall a, p a = true) -> l = filter p l).
  { intros p Hp. rewrite (filter_ext p (fun _ => true) Hp). symmetry. apply filter_true. }
  destruct filters as [[country category sources]|]; [|now apply bare].
  unfold matches; cbn [ArticleFilters.country ArticleFilters.category ArticleFilters.sources].
  destruct country as [c|]; [destruct (Js.truthyStr c)|];
    (destruct category as [c'|]; [destruct (Js.truthyStr c')|]);
    (destruct sources as [srcs|]; [destruct (0 <? List.length srcs)%nat|]);
    rewrite ?filter_filter;
    first [ now apply bare
          | apply filter_ext; intro a; cbn [andb];
            rewrite ?andb_true_r, ?andb_assoc; reflexivity ].
Qed.

(** ** The map of the store *)

Section MapFacts.
Context {V : Type}.
Implicit Types (m : JsMap.t V) (k : string) (v : V).

Lemma get_set_eq m k v : JsMap.get k (JsMap.set k v m) = Some v.
Proof.
  induction m as [|[k' v'] m IH]; simpl.
  - now rewrite String.eqb_refl.
  - destruct (String.eqb_spec k' k) as [->|Hne]; simpl.
    + now rewrite String.eqb_refl.
    + destruct (String.eqb_spec k' k); [contradiction | exact IH].
Qed.

Lemma get_set_neq m k k' v : k <> k' -> JsMap.get k' (JsMap.set k v m) = JsMap.get k' m.
Proof.
  intro Hne. induction m as [|[k0 v0] m IH]; simpl.
  - destruct (String.eqb_spec k k'); [contradiction | reflexivity].
  - destruct (String.eqb_spec k0 k) as [->|H0]; simpl.
    + destruct (String.eqb_spec k k'); [contradiction | reflexivity].
    + destruct (String.eqb_spec k0 k'); [reflexivity | exact IH].
Qed.

Lemma get_In m k v : JsMap.get k m = Some v -> In (k, v) m.
Proof.
  induction m as [|[k' v'] m IH]; simpl; [discriminate|].
  destruct (String.eqb_spec k' k) as [->|Hne].
  - intros [= ->]. now left.
  - intro H. right. now apply IH.
Qed.

Lemma get_None_keys m k : JsMap.get k m = None -> ~ In k (JsMap.keys m).
Proof.
  induction m as [|[k' v'] m IH]; simpl; [tauto|].
  destruct (String.eqb_spec k' k) as [->|Hne]; [discriminate|].
  intros H [Hk|Hk]; [contradiction | now apply IH].
Qed.

Lemma In_get m k v : NoDup (JsMap.keys m) -> In (k, v) m -> JsMap.get k m = Some v.
Proof.
  induction m as [|[k' v'] m IH]; simpl; [tauto|].
  intros Hnd [[= -> ->]|Hin].
  - now rewrite String.eqb_refl.
  - inversion Hnd as [|? ? Hk' Hm]; subst.
    destruct (String.eqb_spec k' k) as [->|Hne].
    + exfalso. apply Hk'. change k with (fst (k, v)). now apply in_map.
    + now apply IH.
Qed.

(** [set] on a key of the map changes no key; on a new key it adds it last. *)
Lemma keys_set m k v :
  JsMap.keys (JsMap.set k v m)
  = match JsMap.get k m with
    | Some _ => JsMap.keys m
    | None => (JsMap.keys m ++ [k])%list
    end.
Proof.
  induction m as [|[k' v'] m IH]; simpl; [reflexivity|].
  destruct (String.eqb_spec k' k) as [->|Hne]; simpl; [reflexivity|].
  rewrite IH. now destruct (JsMap.get k m).
Qed.

Lemma NoDup_keys_set m k v : NoDup (JsMap.keys m) -> NoDup (JsMap.keys (JsMap.set k v m)).
Proof.
  intro Hnd. rewrite keys_set.
  destruct (JsMap.get k m) eqn:Hget; [exact Hnd|].
  apply NoDup_app; [exact Hnd | repeat constructor; simpl; tauto |].
  intros x Hx [<-|[]]. revert Hx. now apply get_None_keys.
Qed.

Lemma In_set m k v k' v' :
  In (k', v') (JsMap.set k v m) -> (k' = k /\ v' = v) \/ In (k', v') m.
Proof.
  induction m as [|[k0 v0] m IH]; simpl.
  - intros [[= <- <-]|[]]. now left.
  - destruct (String.eqb_spec k0 k) as [->|Hne]; simpl.
    + intros [[= <- <-]|Hin]; [now left | now right; right].
    + intros [Heq|Hin]; [now right; left|].
      destruct (IH Hin) as [?|?]; [now left | now right; right].
Qed.

End MapFacts.

(** ** The store *)

(** A creation under a new identifier puts the record last. *)
Lemma createArticle_appends uuid now ins (st : MemStorage) :
  JsMap.get uuid st = None ->
  JsMap.values (snd (createArticle uuid now ins st))
  = (JsMap.values st ++ [fst (createArticle uuid now ins st)])%list.
Proof.
  intro Hnew. unfold createArticle. simpl.
  induction st as [|[k a] st IH]; simpl in *; [reflexivity|].
  destruct (k =? uuid); [discriminate|]. simpl. f_equal. now apply IH.
Qed.

Lemma keyed_set (st : MemStorage) (a : Article.t) :
  keyed st -> keyed (JsMap.set (Article.id a) a st).
Proof.
  intros [Hnd Hid]. split; [now apply NoDup_keys_set|].
  intros k b Hin. apply In_set in Hin as [[-> ->]|Hin]; [reflexivity | now apply Hid].
Qed.

(** In a keyed store the [id]s of the records are the keys. *)
Lemma keyed_ids (st : MemStorage) :
  keyed st -> map Article.id (JsMap.values st) = JsMap.keys st.
Proof.
  intros [_ Hid]. unfold JsMap.values, JsMap.keys. rewrite map_map.
  apply map_ext_in. intros [k a] Hin. simpl. now apply Hid.
Qed.

Lemma keyed_createArticle uuid now ins (st : MemStorage) :
  keyed st -> keyed (snd (createArticle uuid now ins st)).
Proof. intro H. unfold createArticle. simpl. now apply (keyed_set st (Article.mk uuid _ _ _ _ _ _ _ _ _ _ _ _)). Qed.

Lemma merge_id existing updates :
  PartialArticle.id updates = None -> Article.id (merge existing updates) = Article.id existing.
Proof. intro H. unfold merge. simpl. now rewrite H. Qed.

Lemma merge_createdAt existing updates :
  PartialArticle.createdAt updates = None ->
  Article.createdAt (merge existing updates) = Article.createdAt existing.
Proof. intro H. unfold merge. simpl. now rewrite H. Qed.

Lemma keyed_applyOp k op (st : MemStorage) :
  keepsIdentity k op -> keyed st -> keyed (applyOp st op).
Proof.
  destruct op as [uuid now ins|id updates]; simpl.
  - intros _. apply keyed_createArticle.
  - intros [Hid _] Hk. unfold updateArticle.
    destruct (JsMap.get id st) as [existing|] eqn:Hget; [|exact Hk].
    assert (Article.id (merge existing updates) = id) as Hmid.
    { rewrite merge_id by exact Hid. destruct Hk as [_ Hk]. apply Hk. now apply get_In. }
    rewrite <- Hmid at 1. now apply keyed_set.
Qed.

(** One request that keeps identities leaves the record under [k] with its
    [id] and [createdAt]. *)
Lemma applyOp_identity k op (st : MemStorage) (a : Article.t) :
  keepsIdentity k op -> JsMap.get k st = Some a ->
  exists a', JsMap.get k (applyOp st op) = Some a'
             /\ Article.id a' = Article.id a
             /\ Article.createdAt a' = Article.createdAt a.
Proof.
  destruct op as [uuid now ins|id updates]; simpl.
  - intros Hne Hget. exists a. rewrite get_set_neq by exact Hne. auto.
  - intros [Hid Hcr] Hget. unfold updateArticle.
    destruct (JsMap.get id st) as [existing|] eqn:Hex; [|exists a; auto].
    destruct (String.eqb_spec id k) as [->|Hne].
    + rewrite get_set_eq. exists (merge existing updates).
      rewrite Hget in Hex. injection Hex as <-.
      split; [reflexivity|]. split; [now apply merge_id | now apply merge_createdAt].
    + rewrite get_set_neq by exact Hne. exists a. auto.
Qed.

Lemma applyOps_identity k ops : forall (st : MemStorage) (a : Article.t),
  Forall (keepsIdentity k) ops -> keyed st -> JsMap.get k st = Some a ->
  keyed (applyOps ops st)
  /\ exists a', JsMap.get k (applyOps ops st) = Some a'
                /\ Article.id a' = Article.id a
                /\ Article.createdAt a' = Article.createdAt a.
Proof.
  induction ops as [|op ops IH]; intros st a Hops Hk Hget; simpl.
  - split; [exact Hk | exists a; auto].
  - inversion Hops as [|? ? Hop Hrest]; subst.
    destruct (applyOp_identity k op st a Hop Hget) as (a1 & Hget1 & Hid1 & Hcr1).
    destruct (IH (applyOp st op) a1 Hrest (keyed_applyOp k op st Hop Hk) Hget1)
      as (Hk' & a' & Hget' & Hid' & Hcr').
    split; [exact Hk'|]. exists a'. repeat split; congruence.
Qed.

(** C2, as the code has it. An article made by [createArticle] keeps the [id]
    and the [createdAt] it was given there through every later request, as
    long as the later creations draw other identifiers and the partial updates
    name neither [id] nor [createdAt]; the store stays keyed by [id], and the
    [id]s of its records are pairwise distinct. *)
Theorem createArticle_identity_stable (st : MemStorage) uuid now ins ops :
  keyed st ->
  Forall (keepsIdentity uuid) ops ->
  let st' := applyOps ops (snd (createArticle uuid now ins st)) in
  keyed st'
  /\ NoDup (map Article.id (JsMap.values st'))
  /\ exists a, JsMap.get uuid st' = Some a
               /\ Article.id a = uuid
               /\ Article.createdAt a = Some now.
Proof.
  intros Hk Hops st'.
  destruct (applyOps_identity uuid ops (snd (createArticle uuid now ins st))
              (fst (createArticle uuid now ins st)) Hops
              (keyed_createArticle uuid now ins st Hk))
    as (Hk' & a & Hget & Hid & Hcr).
  { unfold createArticle. simpl. apply get_set_eq. }
  split; [exact Hk'|]. split.
  - rewrite keyed_ids by exact Hk'. apply Hk'.
  - exists a. auto.
Qed.

(** C2, as stated, fails: a partial update that names [id] or [createdAt]
    overwrites them. *)
Lemma updateArticle_overwrites_identity :
  ~ (forall (st st' : MemStorage) id updates existing updated,
       JsMap.get id st = Some existing ->
       updateArticle id updates st = Ok (updated, st') ->
       Article.id updated = Article.id existing
       /\ Article.createdAt updated = Article.createdAt existing).
Proof.
  intro H.
  pose (a := Article.mk "a1" "Title" None None "https://example.org/1" None 1000%Z None
               None None None None (Some 5000%Z)).
  pose (u := PartialArticle.mk None None None None None None None None None None None None
               (Some (Some 9000%Z))).
  destruct (H [("a1", a)] [("a1", merge a u)] "a1" u a (merge a u) eq_refl eq_refl)
    as [_ Hcr].
  discriminate Hcr.
Qed.

Lemma createArticle_identity_stable_witness :
  let ins := InsertArticle.mk "Title" None None "https://example.org/1" None 1000%Z None
               None None None None in
  let st' := applyOps [OpUpdate "a1" (PartialArticle.ofAiSummary "A summary");
                       OpCreate "a2" 6000%Z ins]
               (snd (createArticle "a1" 5000%Z ins JsMap.empty)) in
  keyed st'
  /\ NoDup (map Article.id (JsMap.values st'))
  /\ exists a, JsMap.get "a1" st' = Some a
               /\ Article.id a = "a1"
               /\ Article.createdAt a = Some 5000%Z.
Proof.
  apply (createArticle_identity_stable JsMap.empty "a1" 5000%Z).
  - split; [constructor | intros k a []].
  - repeat constructor; simpl; discriminate.
Defined.

(** ** Matching on sources *)

Lemma includes_In (arr : list string) (s : string) :
  Js.includes arr (Some s) = true <-> In s arr.
Proof.
  unfold Js.includes. rewrite existsb_exists. split.
  - intros (x & Hx & Heq). apply String.eqb_eq in Heq. now subst.
  - intro H. exists s. split; [exact H | apply String.eqb_refl].
Qed.

Lemma truthyStr_true (s : string) : Js.truthyStr s = true <-> s <> "".
Proof.
  unfold Js.truthyStr. destruct (String.eqb_spec s ""); simpl; split; congruence.
Qed.

(** Membership in the result of [getArticles]. *)
Lemma In_getArticles filters (st : MemStorage) (a : Article.t) :
  In a (getArticles filters st) <-> In a (JsMap.values st) /\ matches filters a = true.
Proof. rewrite getArticles_eq, sort_In. apply filter_In. Qed.

(** What [source?.name || source?.id] is found in a list: the name when there
    is a non-empty one, and the id only when there is not. *)
Lemma includes_sourceKey (srcs : list string) (a : Article.t) :
  Js.includes srcs (sourceKey a) = true <->
  exists src, Article.source a = Some src
    /\ ((exists n, Source.name src = Some n /\ n <> "" /\ In n srcs)
        \/ (Js.truthy (Source.name src) = false
            /\ exists i, Source.id src = Some i /\ In i srcs)).
Proof.
  unfold sourceKey. destruct (Article.source a) as [[sid sname]|]; simpl.
  2: { split; [discriminate | intros (src & [=] & _)]. }
  unfold Js.or. simpl. split.
  - intro H. eexists; split; [reflexivity|]. simpl.
    destruct sname as [n|]; simpl in *.
    + destruct (Js.truthyStr n) eqn:Hn.
      * left. exists n. rewrite <- truthyStr_true, <- includes_In. auto.
      * right. split; [reflexivity|]. destruct sid as [i|]; [|discriminate].
        exists i. now rewrite <- includes_In.
    + right. split; [reflexivity|]. destruct sid as [i|]; [|discriminate].
      exists i. now rewrite <- includes_In.
  - intros (src & [= <-] & [(n & Hn & Hne & Hin)|(Hf & i & Hi & Hin)]); simpl in *; subst.
    + apply truthyStr_true in Hne. simpl. rewrite Hne. now apply includes_In.
    + rewrite Hf. now apply includes_In.
Qed.

(** C1, as the code has it. With a filter that names sources, a stored article
    is returned exactly when the list is empty (no test is made then), or holds
    the article's [source.name] when that name is non-empty, or holds its
    [source.id] when the name is missing or empty. *)
Theorem getArticles_sources_match (st : MemStorage) (a : Article.t) (srcs : list string) :
  In a (JsMap.values st) ->
  (In a (getArticles (sourcesOnly srcs) st) <->
   srcs = []
   \/ exists src, Article.source a = Some src
        /\ ((exists n, Source.name src = Some n /\ n <> "" /\ In n srcs)
            \/ (Js.truthy (Source.name src) = false
                /\ exists i, Source.id src = Some i /\ In i srcs))).
Proof.
  intro Hin. rewrite In_getArticles, <- includes_sourceKey.
  unfold sourcesOnly, matches. simpl.
  destruct srcs as [|s srcs]; simpl.
  - split; [now left | now split].
  - split.
    + intros [_ H]. now right.
    + intros [[=]|H]. now split.
Qed.

(** C1, as stated, fails: an article whose source has a name is not returned
    for a list that holds its [source.id] only. *)
Lemma getArticles_source_id_not_matched :
  ~ (forall (st : MemStorage) (a : Article.t) (src : Source.t) (srcs : list string),
       In a (JsMap.values st) ->
       Article.source a = Some src ->
       Js.includes srcs (Source.name src) = true \/ Js.includes srcs (Source.id src) = true ->
       In a (getArticles (sourcesOnly srcs) st)).
Proof.
  intro H.
  pose (src := Source.mk (Some "bbc-news") (Some "BBC News")).
  pose (a := Article.mk "a1" "Title" None None "https://example.org/1" None 1000%Z (Some src)
               None None None None (Some 5000%Z)).
  specialize (H [("a1", a)] a src ["bbc-news"] (or_introl eq_refl) eq_refl (or_intror eq_refl)).
  vm_compute in H. exact H.
Qed.

Lemma getArticles_sources_match_witness :
  let a := Article.mk "a1" "Title" None None "https://example.org/1" None 1000%Z
             (Some (Source.mk (Some "bbc-news") (Some "BBC News")))
             None None None None (Some 5000%Z) in
  In a (getArticles (sourcesOnly ["BBC News"]) [("a1", a)]).
Proof.
  intro a.
  apply (proj2 (getArticles_sources_match [("a1", a)] a ["BBC News"] (or_introl eq_refl))).
  right. exists (Source.mk (Some "bbc-news") (Some "BBC News")).
  split; [reflexivity|]. left. exists "BBC News".
  split; [reflexivity|]. split; [discriminate | now left].
Defined.

(** ** The records that pass a filter *)

Lemma strictEq_true (field : option string) (wanted : string) :
  strictEq field wanted = true <-> field = Some wanted.
Proof.
  unfold strictEq. destruct field as [s|]; [|split; discriminate].
  rewrite String.eqb_eq. split; [now intros -> | now intros [= ->]].
Qed.

(** The test that [getArticles] makes on [country] and on [category]. *)
Lemma fieldTest_passes (wanted field : option string) :
  match wanted with
  | Some c => if Js.truthyStr c then strictEq field c else true
  | None => true
  end = true
  <-> forall c, wanted = Some c -> c <> "" -> field = Some c.
Proof.
  destruct wanted as [c|]; [|split; [discriminate | reflexivity]].
  destruct (Js.truthyStr c) eqn:Hc.
  - rewrite strictEq_true. apply truthyStr_true in Hc. split.
    + now intros H c' [= <-] _.
    + intro H. now apply H.
  - split; [|reflexivity]. intros _ c' [= <-] Hne.
    apply truthyStr_true in Hne. congruence.
Qed.

Lemma truthy_false (name : option string) :
  Js.truthy name = false <-> name = None \/ name = Some "".
Proof.
  destruct name as [n|]; simpl.
  - unfold Js.truthyStr. destruct (String.eqb_spec n "") as [->|Hne]; simpl.
    + split; [now right | reflexivity].
    + split; [discriminate | intros [[=]|[= ->]]; congruence].
  - split; [now left | reflexivity].
Qed.

(** The three tests of [getArticles] let a record through exactly when it
    passes the filter. *)
Lemma matches_passes (filters : option ArticleFilters.t) (a : Article.t) :
  matches filters a = true <-> passes filters a.
Proof.
  destruct filters as [[country category sources]|]; simpl; [|tauto].
  rewrite !andb_true_iff, !fieldTest_passes.
  assert (Hsrc :
    match sources with
    | Some srcs =>
        if (0 <? List.length srcs)%nat then Js.includes srcs (sourceKey a) else true
    | None => true
    end = true
    <-> forall srcs, sources = Some srcs -> srcs <> [] ->
          exists src,
            Article.source a = Some src
            /\ ((exists n, Source.name src = Some n /\ n <> "" /\ In n srcs)
                \/ ((Source.name src = None \/ Source.name src = Some "")
                    /\ exists i, Source.id src = Some i /\ In i srcs))).
  { destruct sources as [[|s0 srcs]|]; simpl.
    - split; [intros _ srcs [= <-] H; congruence | reflexivity].
    - rewrite includes_sourceKey. split.
      + intros (src & Hs & H) srcs' [= <-] _. exists src. split; [exact Hs|].
        destruct H as [H|[Hf H]]; [now left | right]. now rewrite <- truthy_false.
      + intro H. destruct (H (s0 :: srcs) eq_refl) as (src & Hs & H'); [discriminate|].
        exists src. split; [exact Hs|].
        destruct H' as [H'|[Hf H']]; [now left | right]. now rewrite truthy_false.
    - split; [discriminate | reflexivity]. }
  rewrite Hsrc. tauto.
Qed.

(** C7, as the code has it. For every store whose dates are all valid and
    every filter, [getArticles] returns exactly the records that pass the
    filter in the sense of [passes] (a permutation of them, so with their
    multiplicity), sorted by [publishedAt] descending, and the records of one
    timestamp stand in the order of the store, which is the order of
    insertion. *)
Theorem getArticles_sorted_stable (filters : option ArticleFilters.t) (st : MemStorage) :
  Forall hasValidDate (JsMap.values st) ->
  exists passing : Article.t -> bool,
    (forall a, passing a = true <-> passes filters a)
    /\ (forall a, In a (getArticles filters st) <->
                  In a (JsMap.values st) /\ passes filters a)
    /\ Permutation (getArticles filters st) (filter passing (JsMap.values st))
    /\ StronglySorted newestFirst (getArticles filters st)
    /\ forall t : Z,
         filter (publishedOn t) (getArticles filters st)
         = filter (publishedOn t) (filter passing (JsMap.values st)).
Proof.
  intro Hvalid. exists (matches filters).
  split; [apply matches_passes|]. split.
  - intro a. rewrite In_getArticles. now rewrite matches_passes.
  - rewrite getArticles_eq. split; [apply sort_perm|]. split.
    + apply sort_newestFirst. apply Forall_forall. intros a Ha.
      apply filter_In in Ha as [Ha _]. revert a Ha. now apply Forall_forall.
    + intro t. apply sort_publishedOn.
Qed.

(** C7, as stated, fails: with the matching of the specification, a record
    whose source matches by its [id] is a matching record of the store that
    [getArticles] does not return. *)
Lemma getArticles_misses_spec_match :
  ~ (forall (st : MemStorage) (f : ArticleFilters.t) (a : Article.t),
       In a (getArticles (Some f) st) <-> In a (JsMap.values st) /\ specMatches f a).
Proof.
  intro H.
  pose (src := Source.mk (Some "the-verge") (Some "The Verge")).
  pose (a := Article.mk "n7" "Chips" None None "https://example.org/chips" None 42000%Z
               (Some src) None None None None (Some 43000%Z)).
  pose (f := ArticleFilters.mk None None (Some ["the-verge"])).
  assert (Hin : In a (getArticles (Some f) [("n7", a)])).
  { apply (H [("n7", a)] f a). split; [now left|].
    split; [discriminate|]. split; [discriminate|].
    intros srcs [= <-]. exists src. split; [reflexivity|].
    right. exists "the-verge". split; [reflexivity | now left]. }
  vm_compute in Hin. exact Hin.
Qed.

Lemma getArticles_sorted_stable_witness :
  let old := Article.mk "n1" "Older" None None "https://example.org/1" None 1000%Z None
               None None (Some "us") None (Some 5000%Z) in
  let new := Article.mk "n2" "Newer" None None "https://example.org/2" None 2000%Z None
               None None (Some "us") None (Some 5000%Z) in
  StronglySorted newestFirst
    (getArticles (Some (ArticleFilters.mk (Some "us") None None)) [("n1", old); ("n2", new)]).
Proof.
  intros old new.
  destruct (getArticles_sorted_stable (Some (ArticleFilters.mk (Some "us") None None))
              [("n1", old); ("n2", new)]) as (passing & _ & _ & _ & Hsorted & _).
  - repeat constructor; eexists; reflexivity.
  - exact Hsorted.
Defined.

(** ** The summarize-article route *)

Lemma find_unique {A : Type} (p : A -> bool) (l : list A) (a : A) :
  In a l -> p a = true -> (forall x, In x l -> p x = true -> x = a) ->
  find p l = Some a.
Proof.
  induction l as [|y l IH]; simpl; [tauto|].
  intros Hin Hpa Huniq. destruct (p y) eqn:Hpy.
  - f_equal. apply Huniq; auto.
  - destruct Hin as [->|Hin]; [congruence|]. apply IH; auto.
Qed.

Lemma find_none {A : Type} (p : A -> bool) (l : list A) :
  (forall x, In x l -> p x = false) -> find p l = None.
Proof.
  induction l as [|y l IH]; simpl; [reflexivity|].
  intro H. rewrite (H y) by now left. apply IH. intros x Hx. apply H. now right.
Qed.

Lemma In_values {V : Type} (m : JsMap.t V) (v : V) :
  In v (JsMap.values m) <-> exists k, In (k, v) m.
Proof.
  unfold JsMap.values. rewrite in_map_iff. split.
  - intros ([k v'] & <- & Hin). now exists k.
  - intros (k & Hin). now exists (k, v).
Qed.

(** In a keyed store the route finds the record stored under the [id]. *)
Lemma find_by_id (st : MemStorage) (id : string) (a : Article.t) :
  keyed st -> JsMap.get id st = Some a ->
  find (fun x => Article.id x =? id) (getArticles None st) = Some a.
Proof.
  intros [Hnd Hid] Hget. pose proof (get_In _ _ _ Hget) as Hin.
  apply find_unique.
  - apply In_getArticles. split; [|reflexivity]. apply In_values. now exists id.
  - apply String.eqb_eq. now apply Hid.
  - intros x Hx Hxid. apply String.eqb_eq in Hxid.
    apply In_getArticles in Hx as [Hx _]. apply In_values in Hx as [k Hk].
    pose proof (Hid _ _ Hk) as Hkx. rewrite Hxid in Hkx. subst k.
    pose proof (In_get _ _ _ Hnd Hk) as Hget'. congruence.
Qed.

Lemma summarizeArticle_summaryOf svc title content summaryLength :
  summarizeArticle svc title content summaryLength
  = summaryOf (GeminiService.generateContent svc "gemini-2.5-flash"
                 (summarizePrompt title content
                    (match summaryLength with Some l => l | None => medium end))).
Proof.
  unfold summarizeArticle, summaryOf, textOr, Js.orStr, Js.truthyStr.
  destruct (GeminiService.generateContent _ _ _) as [|[text|]]; simpl; try reflexivity.
  now destruct (Js.trim text =? "").
Qed.

(** C3, as the code has it. For an article of a keyed store: when the
    service was constructed, the route answers 200 whatever the engine does;
    the summary it returns is the one it stores as [aiSummary]; it is the
    fallback text when the engine throws (timeout, transport error), the
    other fixed text [emptySummary] when the response is empty, and the
    trimmed response otherwise. When the service was not constructed, the
    route answers 500 before it looks the article up, the engine is not
    called and the store is left as it was. *)
Theorem summarizeArticleRoute_absorbs_engine_failure
    (geminiService : option GeminiService.t) (id : string)
    (summaryLength : option SummaryLength) (st : MemStorage) (a : Article.t) :
  keyed st ->
  JsMap.get id st = Some a ->
  match geminiService with
  | None =>
      summarizeArticleRoute None id summaryLength st
      = (Response.mk 500 (Message "Gemini service not available. Please check GEMINI_API_KEY environment variable."), st)
  | Some svc =>
      exists updated st',
        summarizeArticleRoute (Some svc) id summaryLength st
        = (Response.mk 200
             (ArticleAndSummary updated (summaryOf (outcomeFor svc a summaryLength))), st')
        /\ JsMap.get id st' = Some updated
        /\ Article.aiSummary updated = Some (summaryOf (outcomeFor svc a summaryLength))
        /\ (outcomeFor svc a summaryLength = EngineThrows ->
            summaryOf (outcomeFor svc a summaryLength) = fallbackSummary)
        /\ (engineFails (outcomeFor svc a summaryLength) ->
            outcomeFor svc a summaryLength <> EngineThrows ->
            summaryOf (outcomeFor svc a summaryLength) = emptySummary)
  end.
Proof.
  intros Hk Hget. destruct geminiService as [svc|]; [|reflexivity].
  unfold summarizeArticleRoute.
  rewrite (find_by_id st id a Hk Hget), summarizeArticle_summaryOf.
  fold (outcomeFor svc a summaryLength).
  unfold updateArticle. rewrite Hget.
  eexists _, _. split; [reflexivity|].
  split; [apply get_set_eq|]. split; [reflexivity|].
  split; [now intros ->|].
  destruct (outcomeFor svc a summaryLength) as [|[text|]]; simpl; try tauto.
  now intros -> _.
Qed.

(** C3, as stated, fails on an empty response: the summary is then
    [emptySummary], not the fallback text. *)
Lemma summarizeArticleRoute_empty_response :
  ~ (forall (svc : GeminiService.t) (id : string) (summaryLength : option SummaryLength)
            (st : MemStorage) (a : Article.t),
       keyed st ->
       JsMap.get id st = Some a ->
       engineFails (outcomeFor svc a summaryLength) ->
       exists updated st',
         summarizeArticleRoute (Some svc) id summaryLength st
         = (Response.mk 200 (ArticleAndSummary updated fallbackSummary), st')
         /\ Article.aiSummary updated = Some fallbackSummary).
Proof.
  intro H.
  pose (a := Article.mk "a1" "Title" None (Some "Body") "https://example.org/1" None 1000%Z
               None None None None None (Some 5000%Z)).
  pose (svc := GeminiService.mk (fun _ _ => EngineResponds (Some ""))).
  destruct (H svc "a1" None [("a1", a)] a) as (updated & st' & Hres & _).
  - split; [repeat constructor; simpl; tauto|].
    intros k b [[= <- <-]|[]]. reflexivity.
  - reflexivity.
  - reflexivity.
  - vm_compute in Hres. discriminate Hres.
Qed.

Lemma summarizeArticleRoute_absorbs_engine_failure_witness :
  let a := Article.mk "a1" "Title" None (Some "Body") "https://example.org/1" None 1000%Z
             None None None None None (Some 5000%Z) in
  let svc := GeminiService.mk (fun _ _ => EngineThrows) in
  exists updated st',
    summarizeArticleRoute (Some svc) "a1" None [("a1", a)]
    = (Response.mk 200 (ArticleAndSummary updated fallbackSummary), st')
    /\ JsMap.get "a1" st' = Some updated
    /\ Article.aiSummary updated = Some fallbackSummary.
Proof.
  intros a svc.
  destruct (summarizeArticleRoute_absorbs_engine_failure (Some svc) "a1" None [("a1", a)] a)
    as (updated & st' & Hres & Hget & Hsum & _).
  - split; [repeat constructor; simpl; tauto|].
    intros k b [[= <- <-]|[]]. reflexivity.
  - reflexivity.
  - exists updated, st'. auto.
Defined.

(** C8, as the code has it. When no stored article carries the [id] of the
    request, the store after the request is the store before it, and the
    route answers 404 "Article not found" when the service was constructed,
    and 500 when it was not: the test of the service comes before the
    lookup. *)
Theorem summarizeArticleRoute_unknown_id
    (geminiService : option GeminiService.t) (id : string)
    (summaryLength : option SummaryLength) (st : MemStorage) :
  (forall a, In a (JsMap.values st) -> Article.id a <> id) ->
  summarizeArticleRoute geminiService id summaryLength st
  = (match geminiService with
     | Some _ => Response.mk 404 (Message "Article not found")
     | None => Response.mk 500 (Message "Gemini service not available. Please check GEMINI_API_KEY environment variable.")
     end, st).
Proof.
  intro Hno. unfold summarizeArticleRoute.
  destruct geminiService as [svc|]; [|reflexivity].
  rewrite find_none; [reflexivity|].
  intros x Hx. apply In_getArticles in Hx as [Hx _].
  apply String.eqb_neq. now apply Hno.
Qed.

(** C8, as stated, fails: without the service an unknown [id] is answered
    500, not 404. *)
Lemma summarizeArticleRoute_unknown_id_no_service :
  ~ (forall (geminiService : option GeminiService.t) (id : string)
            (summaryLength : option SummaryLength) (st : MemStorage),
       (forall a, In a (JsMap.values st) -> Article.id a <> id) ->
       summarizeArticleRoute geminiService id summaryLength st
       = (Response.mk 404 (Message "Article not found"), st)).
Proof.
  intro H.
  specialize (H None "zz" None JsMap.empty (fun a (Hin : In a []) => False_ind _ Hin)).
  discriminate H.
Qed.

Lemma summarizeArticleRoute_unknown_id_witness :
  let a := Article.mk "a1" "Title" None (Some "Body") "https://example.org/1" None 1000%Z
             None None None None None (Some 5000%Z) in
  let svc := GeminiService.mk (fun _ _ => EngineResponds (Some "A summary")) in
  summarizeArticleRoute (Some svc) "zz" None [("a1", a)]
  = (Response.mk 404 (Message "Article not found"), [("a1", a)]).
Proof.
  intros a svc.
  apply (summarizeArticleRoute_unknown_id (Some svc) "zz" None [("a1", a)]).
  intros x [<-|[]]. discriminate.
Defined.

(** ** Topic summaries *)

(** C4. Whatever the engine does, [generateTopicSummary] returns as
    [sourceLinks] the citations of the input articles, one for each and in
    their order. *)
Theorem generateTopicSummary_sourceLinks
    (svc : GeminiService.t) (topic : string) (articles : list TopicArticle.t) :
  TopicSummary.sourceLinks (generateTopicSummary svc topic articles) = map citation articles
  /\ List.length (TopicSummary.sourceLinks (generateTopicSummary svc topic articles))
     = List.length articles
  /\ forall i article,
       nth_error articles i = Some article ->
       nth_error (TopicSummary.sourceLinks (generateTopicSummary svc topic articles)) i
       = Some (citation article).
Proof.
  assert (Hlinks : TopicSummary.sourceLinks (generateTopicSummary svc topic articles)
                   = map citation articles).
  { unfold generateTopicSummary.
    destruct (GeminiService.generateContent svc _ _); simpl;
      apply map_ext; intros [title content description url [[sid [n|]]|]];
      unfold citation; simpl; try reflexivity;
      unfold Js.truthyStr; now destruct (n =? ""). }
  rewrite Hlinks. split; [reflexivity|]. split; [apply length_map|].
  intros i article Hnth. now apply map_nth_error.
Qed.

Lemma generateTopicSummary_sourceLinks_witness :
  let a1 := TopicArticle.mk "Rates rise" "Body" None "https://example.org/1"
              (Some (Source.mk (Some "bbc-news") (Some "BBC News"))) in
  let a2 := TopicArticle.mk "Prices fall" "" None "https://example.org/2" None in
  TopicSummary.sourceLinks
    (generateTopicSummary (GeminiService.mk (fun _ _ => EngineThrows)) "inflation" [a1; a2])
  = [SourceLink.mk "Rates rise" "https://example.org/1" "BBC News";
     SourceLink.mk "Prices fall" "https://example.org/2" "Unknown Source"].
Proof.
  intros a1 a2.
  exact (proj1 (generateTopicSummary_sourceLinks
                  (GeminiService.mk (fun _ _ => EngineThrows)) "inflation" [a1; a2])).
Defined.

(** ** The schema of the filters *)

Section SchemaFacts.
Variable Number : QueryValue -> Js.number.








End SchemaFacts.

(** ** The parameters of the provider request *)

Lemma has_remove_neq name name' params :
  name' <> name ->
  URLSearchParams.has name (URLSearchParams.remove name' params)
  = URLSearchParams.has name params.
Proof.
  intro Hne. induction params as [|[n v] rest IH]; [reflexivity|].
  unfold URLSearchParams.remove, URLSearchParams.has in *. simpl.
  destruct (String.eqb_spec n name') as [->|Hn]; simpl.
  - destruct (String.eqb_spec name' name); [contradiction | exact IH].
  - now rewrite IH.
Qed.

Lemma has_set name name' value params :
  URLSearchParams.has name (URLSearchParams.set name' value params)
  = (name' =? name) || URLSearchParams.has name params.
Proof.
  induction params as [|[n v] rest IH]; simpl.
  - unfold URLSearchParams.has. simpl. now rewrite orb_false_r.
  - destruct (String.eqb_spec n name') as [->|Hn].
    + change (URLSearchParams.has name ((name', value) :: URLSearchParams.remove name' rest))
        with ((name' =? name) || URLSearchParams.has name (URLSearchParams.remove name' rest)).
      change (URLSearchParams.has name ((name', v) :: rest))
        with ((name' =? name) || URLSearchParams.has name rest).
      destruct (String.eqb_spec name' name) as [_|Hne]; [reflexivity|].
      simpl. now apply has_remove_neq.
    + change (URLSearchParams.has name ((n, v) :: URLSearchParams.set name' value rest))
        with ((n =? name) || URLSearchParams.has name (URLSearchParams.set name' value rest)).
      change (URLSearchParams.has name ((n, v) :: rest))
        with ((n =? name) || URLSearchParams.has name rest).
      rewrite IH. now destruct (n =? name), (name' =? name).
Qed.

Lemma get_remove_neq name name' params :
  name' <> name ->
  URLSearchParams.get name (URLSearchParams.remove name' params)
  = URLSearchParams.get name params.
Proof.
  intro Hne. induction params as [|[n v] rest IH]; [reflexivity|].
  unfold URLSearchParams.remove in *. simpl.
  destruct (String.eqb_spec n name') as [->|Hn]; simpl.
  - destruct (String.eqb_spec name' name); [contradiction | exact IH].
  - now rewrite IH.
Qed.

Lemma get_set name name' value params :
  URLSearchParams.get name (URLSearchParams.set name' value params)
  = if name' =? name then Some value else URLSearchParams.get name params.
Proof.
  induction params as [|[n v] rest IH]; simpl; [reflexivity|].
  destruct (String.eqb_spec n name') as [->|Hn]; simpl.
  - destruct (String.eqb_spec name' name) as [_|Hne]; [reflexivity|].
    now apply get_remove_neq.
  - rewrite IH. destruct (String.eqb_spec n name) as [->|Hn'];
      destruct (String.eqb_spec name' name) as [->|Hn'']; congruence.
Qed.

Section NewsServiceFacts.
Variable numberToString : Js.number -> string.

Lemma has_setIfTruthy name n value params :
  URLSearchParams.has name (setIfTruthy n value params)
  = (Js.truthy value && (n =? name)) || URLSearchParams.has name params.
Proof.
  unfold setIfTruthy. destruct value as [v|]; simpl; [|reflexivity].
  destruct (Js.truthyStr v); simpl; [apply has_set | reflexivity].
Qed.


Lemma has_setNumber name n value params :
  URLSearchParams.has name (setNumber numberToString n value params)
  = (match value with Some v => Js.truthyNum v | None => false end && (n =? name))
    || URLSearchParams.has name params.
Proof.
  unfold setNumber. destruct value as [v|]; simpl; [|reflexivity].
  destruct (Js.truthyNum v); simpl; [apply has_set | reflexivity].
Qed.

Lemma get_setIfTruthy name n value params :
  URLSearchParams.get name (setIfTruthy n value params)
  = if Js.truthy value && (n =? name) then value else URLSearchParams.get name params.
Proof.
  unfold setIfTruthy. destruct value as [v|]; simpl; [|reflexivity].
  destruct (Js.truthyStr v); simpl; [apply get_set | reflexivity].
Qed.

Lemma get_setSources name sources params :
  name <> "sources" ->
  URLSearchParams.get name (setSources sources params) = URLSearchParams.get name params.
Proof.
  intro Hne. unfold setSources. destruct sources as [l|]; [|reflexivity].
  destruct (0 <? List.length l)%nat; [|reflexivity].
  rewrite get_set. destruct (String.eqb_spec "sources" name); [congruence | reflexivity].
Qed.

Lemma get_setNumber name n value params :
  (n =? name) = false ->
  URLSearchParams.get name (setNumber numberToString n value params)
  = URLSearchParams.get name params.
Proof.
  intro Hne. unfold setNumber. destruct value as [v|]; [|reflexivity].
  destruct (Js.truthyNum v); [|reflexivity]. rewrite get_set. now rewrite Hne.
Qed.

(** The [country] of the request of [fetchTopHeadlines]: the caller's when it
    is non-empty; otherwise "us" when [sources] is absent, and none when
    [sources] is present, even empty. *)
Lemma fetchTopHeadlines_country (filters : NewsFilters.t) :
  URLSearchParams.get "country" (fetchTopHeadlines numberToString filters)
  = if Js.truthy (NewsFilters.country filters) then NewsFilters.country filters
    else if sourcesFalsy (NewsFilters.sources filters) then Some "us"
    else None.
Proof.
  unfold fetchTopHeadlines.
  assert (Hbody :
    URLSearchParams.get "country"
      (setNumber numberToString "page" (NewsFilters.page filters)
         (setNumber numberToString "pageSize" (NewsFilters.pageSize filters)
            (setIfTruthy "q" (NewsFilters.q filters)
               (setSources (NewsFilters.sources filters)
                  (setIfTruthy "category" (NewsFilters.category filters)
                     (setIfTruthy "country" (NewsFilters.country filters)
                        URLSearchParams.empty))))))
    = if Js.truthy (NewsFilters.country filters) then NewsFilters.country filters else None).
  { rewrite !get_setNumber by reflexivity.
    rewrite get_setIfTruthy, get_setSources by discriminate.
    rewrite !get_setIfTruthy.
    change ("q" =? "country") with false. change ("category" =? "country") with false.
    change ("country" =? "country") with true.
    rewrite !andb_false_r, andb_true_r. reflexivity. }
  destruct (Js.truthy (NewsFilters.country filters)) eqn:Hc;
    destruct (sourcesFalsy (NewsFilters.sources filters)); cbn [andb negb];
    rewrite ?get_set; first [exact Hbody | reflexivity].
Qed.

(** The [q] of the request of [searchEverything]: the caller's when it is
    non-empty; otherwise "technology" when [sources] is absent or empty, and
    none when sources are named. *)
Lemma searchEverything_q (filters : NewsFilters.t) :
  URLSearchParams.get "q" (searchEverything numberToString filters)
  = if Js.truthy (NewsFilters.q filters) then NewsFilters.q filters
    else if sourcesFalsyOrEmpty (NewsFilters.sources filters) then Some "technology"
    else None.
Proof.
  unfold searchEverything.
  assert (Hbody :
    URLSearchParams.get "q"
      (setNumber numberToString "page" (NewsFilters.page filters)
         (setNumber numberToString "pageSize" (NewsFilters.pageSize filters)
            (setIfTruthy "sortBy" (option_map sortByToString (NewsFilters.sortBy filters))
               (setIfTruthy "to" (NewsFilters.to filters)
                  (setIfTruthy "from" (NewsFilters.from filters)
                     (setSources (NewsFilters.sources filters)
                        (setIfTruthy "q" (NewsFilters.q filters)
                           URLSearchParams.empty)))))))
    = if Js.truthy (NewsFilters.q filters) then NewsFilters.q filters else None).
  { rewrite !get_setNumber by reflexivity.
    rewrite !get_setIfTruthy, get_setSources by discriminate.
    rewrite !get_setIfTruthy.
    change ("sortBy" =? "q") with false. change ("to" =? "q") with false.
    change ("from" =? "q") with false. change ("q" =? "q") with true.
    rewrite !andb_false_r, andb_true_r. reflexivity. }
  destruct (Js.truthy (NewsFilters.q filters)) eqn:Hq;
    destruct (sourcesFalsyOrEmpty (NewsFilters.sources filters)); cbn [andb negb];
    rewrite ?get_set; first [exact Hbody | reflexivity].
Qed.


End NewsServiceFacts.




(** C6 at the input where the code leaves the claim. The query string
    [?sources=] parses to filters whose [sources] is the empty list; with no
    [country], the request of [fetchTopHeadlines] for them has no parameter at
    all, so no [country] "us", although neither a source nor a country is
    named. *)
Theorem fetchTopHeadlines_empty_sources_no_default
    (Number : QueryValue -> Js.number) (numberToString : Js.number -> string) :
  let query := Query.mk None None (Some (QString EmptyString)) None None None None None None in
  let filters := NewsFilters.mk None None (Some []) None None None None None None in
  newsFiltersSchema_parse Number query = Valid filters
  /\ fetchTopHeadlines numberToString filters = []
  /\ URLSearchParams.get "country" (fetchTopHeadlines numberToString filters) <> Some "us".
Proof. split; [reflexivity|]. split; [reflexivity | discriminate]. Qed.

(** C10. For the filters [{ sources: [] }], [fetchTopHeadlines] sends no
    [country] whereas [searchEverything] sends its fallback query. *)
Theorem empty_sources_default_differs (numberToString : Js.number -> string) :
  exists filters : NewsFilters.t,
    NewsFilters.sources filters = Some []
    /\ NewsFilters.country filters = None
    /\ NewsFilters.q filters = None
    /\ URLSearchParams.has "country" (fetchTopHeadlines numberToString filters) = false
    /\ URLSearchParams.get "q" (searchEverything numberToString filters) = Some "technology".
Proof.
  exists (NewsFilters.mk None None (Some []) None None None None None None).
  repeat split; reflexivity.
Qed.

(** ** Voice commands *)

Lemma stripPrefix_first command lowerCommand before prefix after searchQuery :
  (forall p, In p before -> Js.startsWith lowerCommand p = false) ->
  Js.startsWith lowerCommand prefix = true ->
  stripPrefix command lowerCommand (before ++ prefix :: after)%list searchQuery
  = Js.trim (Js.substring (String.length prefix) command).
Proof.
  intros Hbefore Hprefix. induction before as [|p before IH]; simpl.
  - now rewrite Hprefix.
  - rewrite (Hbefore p) by now left. apply IH. intros q Hq. apply Hbefore. now right.
Qed.

Lemma stripPrefix_none command lowerCommand remaining searchQuery :
  (forall p, In p remaining -> Js.startsWith lowerCommand p = false) ->
  stripPrefix command lowerCommand remaining searchQuery = searchQuery.
Proof.
  induction remaining as [|p remaining IH]; simpl; [reflexivity|].
  intro H. rewrite (H p) by now left. apply IH. intros q Hq. apply H. now right.
Qed.

Lemma processVoiceCommand_emit command :
  processVoiceCommand true command
  = if searchQueryOf command =? "" then None else Some (searchQueryOf command).
Proof.
  unfold processVoiceCommand, Js.truthyStr. simpl.
  now destruct (searchQueryOf command =? "").
Qed.

(** C9. For a final transcript, with [phrase] its trimmed text (what the hook
    hands to [processVoiceCommand]): when [prefix] is the first of [prefixes]
    that the lower-cased phrase starts with, the query is the phrase, in its
    own case, without its first [length prefix] characters, trimmed; when the
    phrase starts with none of them, the query is the phrase; and [onSearch]
    is called with the query unless the query is empty, in which case it is
    not called. *)
Theorem onResult_strips_first_prefix (transcript : string) :
  let phrase := Js.trim transcript in
  let emit := fun query : string => if query =? "" then None else Some query in
  (forall before prefix after,
      prefixes = (before ++ prefix :: after)%list ->
      (forall p, In p before -> Js.startsWith (Js.toLowerCase phrase) p = false) ->
      Js.startsWith (Js.toLowerCase phrase) prefix = true ->
      onResult true (SpeechResult.mk transcript true)
      = emit (Js.trim (Js.substring (String.length prefix) phrase)))
  /\ ((forall p, In p prefixes -> Js.startsWith (Js.toLowerCase phrase) p = false) ->
      onResult true (SpeechResult.mk transcript true) = emit phrase).
Proof.
  intros phrase emit. unfold onResult. cbn [SpeechResult.isFinal SpeechResult.transcript andb].
  fold phrase. rewrite processVoiceCommand_emit. unfold Js.truthyStr, searchQueryOf.
  split.
  - intros before prefix after Hsplit Hbefore Hprefix.
    rewrite Hsplit, (stripPrefix_first _ _ _ _ _ _ Hbefore Hprefix).
    destruct (String.eqb_spec phrase "") as [Hempty|_]; [|reflexivity].
    simpl. unfold emit. rewrite Hempty. now destruct (String.length prefix).
  - intro Hnone. rewrite (stripPrefix_none _ _ _ _ Hnone).
    unfold emit. now destruct (phrase =? "").
Qed.

Example onResult_unchanged_without_prefix :
  onResult true (SpeechResult.mk "latest headlines" true) = Some "latest headlines".
Proof. reflexivity. Qed.

Example onResult_bare_prefix_no_call :
  onResult true (SpeechResult.mk "find " true) = None.
Proof. reflexivity. Qed.

Lemma onResult_strips_first_prefix_witness :
  onResult true (SpeechResult.mk "Show me technology news from USA" true)
  = Some "technology news from USA".
Proof.
  apply (proj1 (onResult_strips_first_prefix "Show me technology news from USA")
           ["search for"; "find"] "show me" ["get"; "look for"; "filter"] eq_refl).
  - intros p [<-|[<-|[]]]; reflexivity.
  - reflexivity.
Defined.

(** ** More on the article store *)

Lemma set_set {V : Type} (m : JsMap.t V) (k : string) (v1 v2 : V) :
  JsMap.set k v2 (JsMap.set k v1 m) = JsMap.set k v2 m.
Proof.
  induction m as [|[k' v'] m IH]; simpl.
  - now rewrite String.eqb_refl.
  - destruct (String.eqb_spec k' k) as [->|Hne]; simpl.
    + now rewrite String.eqb_refl.
    + destruct (String.eqb_spec k' k); [contradiction | now rewrite IH].
Qed.

Lemma values_set_new {V : Type} (m : JsMap.t V) (k : string) (v : V) :
  JsMap.get k m = None -> JsMap.values (JsMap.set k v m) = (JsMap.values m ++ [v])%list.
Proof.
  induction m as [|[k' v'] m IH]; simpl; [reflexivity|].
  destruct (k' =? k); [discriminate|]. intro H. simpl. f_equal. now apply IH.
Qed.

Lemma keys_set_member {V : Type} (m : JsMap.t V) (k : string) (v v' : V) :
  JsMap.get k m = Some v' -> JsMap.keys (JsMap.set k v m) = JsMap.keys m.
Proof. intro H. rewrite keys_set. now rewrite H. Qed.

(** X1. [createArticle] followed by a lookup gives the record back: it is
    stored under the drawn identifier, the lookup of the summarize-article
    route finds it, and it carries the fields of the insert as they were, the
    identifier and the creation time. *)
Theorem createArticle_roundtrip (uuid : string) (now : Z) (ins : InsertArticle.t)
    (st : MemStorage) :
  keyed st ->
  let created := createArticle uuid now ins st in
  JsMap.get uuid (snd created) = Some (fst created)
  /\ find (fun a => Article.id a =? uuid) (getArticles None (snd created)) = Some (fst created)
  /\ Article.id (fst created) = uuid
  /\ Article.createdAt (fst created) = Some now
  /\ Article.title (fst created) = InsertArticle.title ins
  /\ Article.description (fst created) = InsertArticle.description ins
  /\ Article.content (fst created) = InsertArticle.content ins
  /\ Article.url (fst created) = InsertArticle.url ins
  /\ Article.urlToImage (fst created) = InsertArticle.urlToImage ins
  /\ Article.publishedAt (fst created) = InsertArticle.publishedAt ins
  /\ Article.source (fst created) = InsertArticle.source ins
  /\ Article.author (fst created) = InsertArticle.author ins
  /\ Article.category (fst created) = InsertArticle.category ins
  /\ Article.country (fst created) = InsertArticle.country ins
  /\ Article.aiSummary (fst created) = InsertArticle.aiSummary ins.
Proof.
  intros Hk created.
  assert (Hget : JsMap.get uuid (snd created) = Some (fst created)).
  { unfold created, createArticle. simpl. apply get_set_eq. }
  split; [exact Hget|]. split.
  - apply find_by_id; [|exact Hget]. apply keyed_createArticle, Hk.
  - repeat split.
Qed.

Lemma createArticle_roundtrip_witness :
  let ins := InsertArticle.mk "Title" None (Some "Body") "https://example.org/1" None 1000%Z
               None None None (Some "us") None in
  find (fun a => Article.id a =? "a1")
    (getArticles None (snd (createArticle "a1" 5000%Z ins JsMap.empty)))
  = Some (fst (createArticle "a1" 5000%Z ins JsMap.empty)).
Proof.
  intro ins.
  refine (proj1 (proj2 (createArticle_roundtrip "a1" 5000%Z ins JsMap.empty _))).
  split; [constructor | intros k a []].
Defined.

(** X2. [updateArticle] throws exactly when no record is stored under the
    [id], with the message that names it; otherwise it returns the merged
    record, stores it under the same key, keeps the keys of the map and their
    order, and leaves the record of every other key as it was. *)
Theorem updateArticle_frame (id : string) (updates : PartialArticle.t) (st : MemStorage) :
  match updateArticle id updates st with
  | Throw message =>
      JsMap.get id st = None /\ message = "Article with id " ++ id ++ " not found"
  | Ok (updated, st') =>
      exists existing,
        JsMap.get id st = Some existing
        /\ updated = merge existing updates
        /\ JsMap.keys st' = JsMap.keys st
        /\ JsMap.get id st' = Some updated
        /\ forall k, k <> id -> JsMap.get k st' = JsMap.get k st
  end.
Proof.
  unfold updateArticle. destruct (JsMap.get id st) as [existing|] eqn:Hget.
  - exists existing. split; [reflexivity|]. split; [reflexivity|].
    split; [now apply keys_set_member with existing|].
    split; [apply get_set_eq|]. intros k Hk. apply get_set_neq. congruence.
  - split; reflexivity.
Qed.

(** X3. Summaries overwrite: two updates of [aiSummary] on the same [id] leave
    the store that the second one alone leaves, and the record then carries
    the second summary and every other field as before. *)
Theorem updateArticle_aiSummary_last_wins (id x y : string) (st : MemStorage) :
  applyOps [OpUpdate id (PartialArticle.ofAiSummary x);
            OpUpdate id (PartialArticle.ofAiSummary y)] st
  = applyOps [OpUpdate id (PartialArticle.ofAiSummary y)] st
  /\ forall a, JsMap.get id st = Some a ->
       JsMap.get id (applyOps [OpUpdate id (PartialArticle.ofAiSummary x);
                               OpUpdate id (PartialArticle.ofAiSummary y)] st)
       = Some (Article.mk (Article.id a) (Article.title a) (Article.description a)
                 (Article.content a) (Article.url a) (Article.urlToImage a)
                 (Article.publishedAt a) (Article.source a) (Article.author a)
                 (Article.category a) (Article.country a) (Some y) (Article.createdAt a)).
Proof.
  unfold applyOps. simpl. unfold updateArticle.
  destruct (JsMap.get id st) as [a|] eqn:Hget; simpl.
  - rewrite get_set_eq, set_set. split; [reflexivity|].
    intros a' [= <-]. apply get_set_eq.
  - rewrite Hget. split; [reflexivity | discriminate].
Qed.

Lemma filter_app_one {A : Type} (p : A -> bool) (l : list A) (x : A) :
  filter p (l ++ [x]) = (filter p l ++ if p x then [x] else [])%list.
Proof. rewrite filter_app. simpl. now destruct (p x). Qed.

(** X4. After a creation under an identifier the store does not yet hold,
    [getArticles] returns what it returned before, and the new record as well
    exactly when the record passes the filter. *)
Theorem getArticles_after_createArticle (filters : option ArticleFilters.t)
    (uuid : string) (now : Z) (ins : InsertArticle.t) (st : MemStorage) :
  JsMap.get uuid st = None ->
  let created := createArticle uuid now ins st in
  Permutation (getArticles filters (snd created))
    (if matches filters (fst created)
     then fst created :: getArticles filters st
     else getArticles filters st).
Proof.
  intros Hnew created.
  rewrite !getArticles_eq.
  unfold created. rewrite (createArticle_appends uuid now ins st Hnew).
  rewrite filter_app_one.
  eapply perm_trans; [apply sort_perm|].
  destruct (matches filters (fst (createArticle uuid now ins st))).
  - eapply perm_trans; [apply Permutation_app_comm|]. simpl.
    apply perm_skip, Permutation_sym, sort_perm.
  - rewrite app_nil_r. apply Permutation_sym, sort_perm.
Qed.

Lemma getArticles_after_createArticle_witness :
  let ins := InsertArticle.mk "Title" None (Some "Body") "https://example.org/1" None 1000%Z
               None None None (Some "us") None in
  Permutation
    (getArticles (Some (ArticleFilters.mk (Some "us") None None))
       (snd (createArticle "a1" 5000%Z ins JsMap.empty)))
    [fst (createArticle "a1" 5000%Z ins JsMap.empty)].
Proof.
  intro ins.
  exact (getArticles_after_createArticle (Some (ArticleFilters.mk (Some "us") None None))
           "a1" 5000%Z ins JsMap.empty eq_refl).
Defined.

(** X5. A filter whose [country] and [category] are absent or empty and whose
    [sources] is absent or the empty list applies no test: [getArticles]
    returns what it returns without a filter. *)
Theorem getArticles_empty_filter (f : ArticleFilters.t) (st : MemStorage) :
  Js.truthy (ArticleFilters.country f) = false ->
  Js.truthy (ArticleFilters.category f) = false ->
  ArticleFilters.sources f = None \/ ArticleFilters.sources f = Some [] ->
  getArticles (Some f) st = getArticles None st.
Proof.
  intros Hc Hcat Hs. rewrite !getArticles_eq. f_equal. apply filter_ext. intro a.
  unfold matches. destruct f as [c cat s]. simpl in *.
  assert (Hsrc : match s with
                 | Some srcs =>
                     if (0 <? List.length srcs)%nat
                     then Js.includes srcs (sourceKey a) else true
                 | None => true
                 end = true).
  { destruct Hs as [->| ->]; reflexivity. }
  rewrite Hsrc.
  destruct c as [c|]; [simpl in Hc; rewrite Hc|];
    (destruct cat as [cat|]; [simpl in Hcat; rewrite Hcat|]); reflexivity.
Qed.

Lemma getArticles_empty_filter_witness :
  let a := Article.mk "a1" "Title" None None "https://example.org/1" None 1000%Z None
             None None None None (Some 5000%Z) in
  getArticles (Some (ArticleFilters.mk (Some EmptyString) None (Some []))) [("a1", a)]
  = getArticles None [("a1", a)].
Proof.
  intro a.
  apply (getArticles_empty_filter (ArticleFilters.mk (Some EmptyString) None (Some [])));
    [reflexivity | reflexivity | now right].
Defined.

(** ** Users and preferences *)

Lemma find_app_one {A : Type} (p : A -> bool) (l : list A) (x : A) :
  find p (l ++ [x])
  = match find p l with
    | Some y => Some y
    | None => if p x then Some x else None
    end.
Proof.
  induction l as [|y l IH]; simpl; [reflexivity|].
  now destruct (p y).
Qed.

(** X6. After [createUser] under a new identifier, [getUser] finds the user
    under it, and [getUserByUsername] answers for every name what it answered
    before when it found a user: an earlier user of the same name hides the
    new one. Without an earlier user it finds the new one under its name. *)
Theorem createUser_lookup (uuid : string) (ins : InsertUser.t) (users : Users)
    (username : string) :
  JsMap.get uuid users = None ->
  let created := createUser uuid ins users in
  getUser uuid (snd created) = Some (fst created)
  /\ User.id (fst created) = uuid
  /\ getUserByUsername username (snd created)
     = match getUserByUsername username users with
       | Some earlier => Some earlier
       | None => if InsertUser.username ins =? username then Some (fst created) else None
       end.
Proof.
  intros Hnew created. split; [apply get_set_eq|]. split; [reflexivity|].
  unfold getUserByUsername, created, createUser. simpl.
  rewrite (values_set_new _ _ _ Hnew), find_app_one. reflexivity.
Qed.

Lemma createUser_lookup_witness :
  let first := createUser "u1" (InsertUser.mk "ada" "pw1") JsMap.empty in
  let second := createUser "u2" (InsertUser.mk "ada" "pw2") (snd first) in
  getUserByUsername "ada" (snd second) = Some (fst first).
Proof.
  intros first second.
  exact (proj2 (proj2 (createUser_lookup "u2" (InsertUser.mk "ada" "pw2") (snd first) "ada"
                         eq_refl))).
Defined.

Section PreferencesFacts.
Context {Json : Type}.
Implicit Types (store : Preferences Json).

(** X7. After [createUserPreferences] under a new identifier,
    [getUserPreferences] answers for every user what it answered before when
    it found preferences: preferences created again for a user who has some
    are stored but never read back. *)
Theorem createUserPreferences_shadowed (uuid : string)
    (ins : InsertUserPreferences.t Json) store (userId : string) :
  JsMap.get uuid store = None ->
  let created := createUserPreferences uuid ins store in
  JsMap.get uuid (snd created) = Some (fst created)
  /\ getUserPreferences userId (snd created)
     = match getUserPreferences userId store with
       | Some earlier => Some earlier
       | None => if strictEq (InsertUserPreferences.userId ins) userId
                 then Some (fst created) else None
       end.
Proof.
  intros Hnew created. split; [apply get_set_eq|].
  unfold getUserPreferences, created, createUserPreferences. simpl.
  rewrite (values_set_new _ _ _ Hnew), find_app_one. reflexivity.
Qed.

Lemma find_set_found (p : UserPreferences.t Json -> bool) store
    (existing updated : UserPreferences.t Json) :
  keyedPreferences store ->
  find p (JsMap.values store) = Some existing ->
  p updated = true ->
  find p (JsMap.values (JsMap.set (UserPreferences.id existing) updated store))
  = Some updated.
Proof.
  intros [Hnd Hid] Hfind Hp.
  induction store as [|[k v] store IH]; simpl in *; [discriminate|].
  destruct (p v) eqn:Hpv.
  - injection Hfind as <-. rewrite (Hid k v) by now left.
    rewrite String.eqb_refl. simpl. now rewrite Hp.
  - destruct (k =? UserPreferences.id existing); simpl; [now rewrite Hp|].
    rewrite Hpv. apply IH; [now inversion Hnd | intros; apply Hid; now right | exact Hfind].
Qed.

(** X8. In a preferences map keyed by [id], an update that does not change
    the [userId] succeeds for a user who has preferences, and
    [getUserPreferences] then returns the merged record it returned; for a
    user without preferences the update throws. *)
Theorem updateUserPreferences_roundtrip (userId : string)
    (updates : PartialUserPreferences.t Json) store :
  keyedPreferences store ->
  PartialUserPreferences.userId updates = None ->
  match getUserPreferences userId store with
  | Some existing =>
      exists store',
        updateUserPreferences userId updates store
        = Ok (mergePreferences existing updates, store')
        /\ getUserPreferences userId store' = Some (mergePreferences existing updates)
        /\ JsMap.keys store' = JsMap.keys store
  | None =>
      updateUserPreferences userId updates store
      = Throw ("User preferences for user " ++ userId ++ " not found")
  end.
Proof.
  intros Hk Hu. unfold getUserPreferences, updateUserPreferences.
  destruct (find (ofUser userId) (JsMap.values store)) as [existing|] eqn:Hfind;
    [|reflexivity].
  eexists. split; [reflexivity|]. split.
  - apply find_set_found; [exact Hk | exact Hfind |].
    unfold ofUser, mergePreferences. simpl. rewrite Hu. simpl.
    apply find_some in Hfind. apply Hfind.
  - apply find_some in Hfind as [Hin _]. apply In_values in Hin as [k Hin].
    destruct Hk as [Hnd Hid]. rewrite (Hid k existing Hin).
    apply keys_set_member with existing. now apply In_get.
Qed.

End PreferencesFacts.

Lemma createUserPreferences_shadowed_witness :
  let first :=
    createUserPreferences (Json := list string) "p1"
      (InsertUserPreferences.mk (Some "u1") (Some ["bbc-news"]) None None None None)
      JsMap.empty in
  let second :=
    createUserPreferences "p2"
      (InsertUserPreferences.mk (Some "u1") (Some ["cnn"]) None None None None)
      (snd first) in
  getUserPreferences "u1" (snd second) = Some (fst first).
Proof.
  intros first second.
  exact (proj2 (createUserPreferences_shadowed "p2"
                  (InsertUserPreferences.mk (Some "u1") (Some ["cnn"]) None None None None)
                  (snd first) "u1" eq_refl)).
Defined.

Lemma updateUserPreferences_roundtrip_witness :
  let p := UserPreferences.mk (Json := list string) "p1" (Some "u1") (Some ["bbc-news"])
             None None None None in
  let updates := PartialUserPreferences.mk (Json := list string) None None
                   (Some (Some ["cnn"])) None None None None in
  exists store',
    updateUserPreferences "u1" updates [("p1", p)]
    = Ok (mergePreferences p updates, store')
    /\ getUserPreferences "u1" store' = Some (mergePreferences p updates)
    /\ JsMap.keys store' = ["p1"].
Proof.
  intros p updates.
  refine (updateUserPreferences_roundtrip "u1" updates [("p1", p)] _ eq_refl).
  split; [repeat constructor; simpl; tauto|].
  intros k q [[= <- <-]|[]]. reflexivity.
Defined.

(** ** Summaries *)

Lemma summarizeLoop_map svc l articles summaries :
  summarizeLoop svc l articles summaries
  = (summaries
     ++ map (fun article =>
               summaryOf (GeminiService.generateContent svc "gemini-2.5-flash"
                            (batchPrompt article l)))
          articles)%list.
Proof.
  revert summaries. induction articles as [|article rest IH]; intro summaries; simpl.
  - now rewrite app_nil_r.
  - rewrite IH.
    destruct (GeminiService.generateContent _ _ _) as [|[text|]];
      rewrite <- app_assoc; simpl; try reflexivity.
    unfold textOr, Js.orStr, Js.truthyStr. simpl.
    now destruct (Js.trim text =? "").
Qed.

Lemma orStr_orStr (v : option string) :
  Js.orStr (Some (Js.orStr v "")) "No content available" = Js.orStr v "No content available".
Proof.
  unfold Js.orStr, Js.truthyStr. destruct v as [s|]; simpl; [|reflexivity].
  destruct (String.eqb_spec s "") as [->|Hne]; simpl; [reflexivity|].
  now destruct (String.eqb_spec s "").
Qed.

Lemma batchPrompt_summarizePrompt (article : RequestArticle.t) (l : SummaryLength) :
  batchPrompt article l
  = summarizePrompt (RequestArticle.title article)
      (Js.orStr (Js.or (Some (RequestArticle.content article))
                   (RequestArticle.description article)) "")
      l.
Proof. unfold batchPrompt, summarizePrompt. now rewrite orStr_orStr. Qed.

(** X9. [summarizeArticles] returns one summary for each article of the
    request, in their order, and each is the summary that [summarizeArticle]
    makes of that article alone, with the content the summarize-article route
    would pass: a failure on one article changes no other summary. *)
Theorem summarizeArticles_pointwise (svc : GeminiService.t) (request : SummarizeRequest.t) :
  summarizeArticles svc request
  = map (fun article =>
           summarizeArticle svc (RequestArticle.title article)
             (Js.orStr (Js.or (Some (RequestArticle.content article))
                          (RequestArticle.description article)) "")
             (SummarizeRequest.summaryLength request))
      (SummarizeRequest.articles request)
  /\ List.length (summarizeArticles svc request)
     = List.length (SummarizeRequest.articles request).
Proof.
  assert (H : summarizeArticles svc request
              = map (fun article =>
                       summarizeArticle svc (RequestArticle.title article)
                         (Js.orStr (Js.or (Some (RequestArticle.content article))
                                      (RequestArticle.description article)) "")
                         (SummarizeRequest.summaryLength request))
                  (SummarizeRequest.articles request)).
  { unfold summarizeArticles. rewrite summarizeLoop_map. simpl.
    apply map_ext. intro article.
    now rewrite summarizeArticle_summaryOf, batchPrompt_summarizePrompt. }
  split; [exact H|]. rewrite H. apply length_map.
Qed.

(** White space at the two ends of a string. *)
Lemma trimEnd_idem (s : string) : Js.trimEnd (Js.trimEnd s) = Js.trimEnd s.
Proof.
  induction s as [|c s IH]; [reflexivity|].
  cbn [Js.trimEnd]. destruct (Js.trimEnd s) as [|c' r] eqn:Hr.
  - destruct (Js.isWhiteSpace c) eqn:Hc; [reflexivity|]. cbn [Js.trimEnd]. now rewrite Hc.
  - change (Js.trimEnd (String c (String c' r)))
      with (match Js.trimEnd (String c' r) with
            | EmptyString => if Js.isWhiteSpace c then EmptyString else String c EmptyString
            | String c1 r1 => String c (String c1 r1)
            end).
    now rewrite IH.
Qed.

Lemma trimStart_head (s : string) :
  match Js.trimStart s with
  | EmptyString => True
  | String c _ => Js.isWhiteSpace c = false
  end.
Proof.
  induction s as [|c s IH]; simpl; [exact I|].
  destruct (Js.isWhiteSpace c) eqn:Hc; [exact IH | exact Hc].
Qed.

Lemma trimStart_trimEnd (s : string) :
  match s with
  | EmptyString => True
  | String c _ => Js.isWhiteSpace c = false
  end ->
  Js.trimStart (Js.trimEnd s) = Js.trimEnd s.
Proof.
  destruct s as [|c s]; [reflexivity|]. intro Hc. cbn [Js.trimEnd].
  destruct (Js.trimEnd s); rewrite ?Hc; cbn [Js.trimStart]; now rewrite Hc.
Qed.

Lemma trim_idem (s : string) : Js.trim (Js.trim s) = Js.trim s.
Proof.
  unfold Js.trim. rewrite (trimStart_trimEnd _ (trimStart_head s)). apply trimEnd_idem.
Qed.

Lemma textOr_clean (text : option string) (orElse : string) :
  orElse <> "" -> Js.trim orElse = orElse ->
  textOr text orElse <> "" /\ Js.trim (textOr text orElse) = textOr text orElse.
Proof.
  intros Hne Htrim. unfold textOr, Js.orStr, Js.truthyStr.
  destruct text as [t|]; simpl; [|now split].
  destruct (String.eqb_spec (Js.trim t) "") as [_|Hn]; simpl; [now split|].
  split; [exact Hn | apply trim_idem].
Qed.

(** X10. The summary of [summarizeArticle] is never empty and has no white
    space at its ends, whatever the engine does and whatever the article. *)
Theorem summarizeArticle_never_blank (svc : GeminiService.t) (title content : string)
    (summaryLength : option SummaryLength) :
  summarizeArticle svc title content summaryLength <> ""
  /\ Js.trim (summarizeArticle svc title content summaryLength)
     = summarizeArticle svc title content summaryLength.
Proof.
  unfold summarizeArticle.
  destruct (GeminiService.generateContent _ _ _) as [|text].
  - split; [discriminate | reflexivity].
  - apply textOr_clean; [discriminate | reflexivity].
Qed.

(** X11. The summary of [generateTopicSummary] is never empty and has no
    white space at its ends; it is the text that names a processing error
    when the engine throws. *)
Theorem generateTopicSummary_summary (svc : GeminiService.t) (topic : string)
    (articles : list TopicArticle.t) :
  TopicSummary.summary (generateTopicSummary svc topic articles) <> ""
  /\ Js.trim (TopicSummary.summary (generateTopicSummary svc topic articles))
     = TopicSummary.summary (generateTopicSummary svc topic articles)
  /\ (GeminiService.generateContent svc "gemini-2.5-pro" (topicPrompt topic articles)
      = EngineThrows ->
      TopicSummary.summary (generateTopicSummary svc topic articles)
      = "Unable to generate topic summary due to processing error").
Proof.
  unfold generateTopicSummary.
  destruct (GeminiService.generateContent _ _ _) as [|text]; simpl.
  - split; [discriminate|]. split; reflexivity.
  - destruct (textOr_clean text "Unable to generate topic summary") as [H1 H2];
      [discriminate | reflexivity |].
    split; [exact H1|]. split; [exact H2 | discriminate].
Qed.

(** ** The news routes *)

Section NewsRoutesFacts.
Variable Number : QueryValue -> Js.number.
Variable numberToString : Js.number -> string.
Variable dateOf : string -> JsDate.

Lemma storeArticles_fst randomUUID now filters apiArticles :
  forall index (st : MemStorage),
    fst (storeArticles dateOf randomUUID now index filters apiArticles st)
    = mapi (fun a i => storedArticle dateOf randomUUID now filters i a) index apiArticles.
Proof.
  induction apiArticles as [|a rest IH]; intros index st; simpl; [reflexivity|].
  now rewrite IH.
Qed.

Lemma storeArticles_keyed randomUUID now filters apiArticles :
  forall index (st : MemStorage),
    keyed st -> keyed (snd (storeArticles dateOf randomUUID now index filters apiArticles st)).
Proof.
  induction apiArticles as [|a rest IH]; intros index st Hk; cbn [storeArticles snd fst];
    [exact Hk|].
  apply IH. now apply keyed_createArticle.
Qed.

(** With identifiers that are new to the store and distinct, the records go
    to the end of the store in the order of the response. *)
Lemma storeArticles_values randomUUID now filters apiArticles :
  forall index (st : MemStorage),
    NoDup (map randomUUID (seq index (List.length apiArticles))) ->
    (forall i, In i (seq index (List.length apiArticles)) ->
               JsMap.get (randomUUID i) st = None) ->
    JsMap.values (snd (storeArticles dateOf randomUUID now index filters apiArticles st))
    = (JsMap.values st
       ++ fst (storeArticles dateOf randomUUID now index filters apiArticles st))%list.
Proof.
  induction apiArticles as [|a rest IH]; intros index st Hnd Hnew; simpl.
  - now rewrite app_nil_r.
  - simpl in Hnd, Hnew. inversion Hnd as [|? ? Hhead Htail]; subst.
    rewrite IH.
    + rewrite values_set_new by (apply Hnew; now left).
      now rewrite <- app_assoc.
    + exact Htail.
    + intros i Hi. rewrite get_set_neq.
      * apply Hnew. now right.
      * intro Heq. apply Hhead. rewrite Heq. now apply in_map.
Qed.

Lemma mapi_length {A B : Type} (f : A -> nat -> B) (l : list A) :
  forall index, List.length (mapi f index l) = List.length l.
Proof. induction l as [|x l IH]; intro index; simpl; [reflexivity | now rewrite IH]. Qed.

Lemma mapi_nth_error {A B : Type} (f : A -> nat -> B) (l : list A) :
  forall index i x,
    nth_error l i = Some x -> nth_error (mapi f index l) i = Some (f x (index + i)).
Proof.
  induction l as [|y l IH]; intros index i x; destruct i as [|i]; simpl; try discriminate.
  - intros [= ->]. now rewrite Nat.add_0_r.
  - intro H. rewrite (IH (S index) i x H). f_equal. f_equal. lia.
Qed.

(** X12. When the query is valid and the provider answers, GET /api/news
    answers 200 with the provider's [status] and [totalResults] and one
    stored record for each article of the provider, in the provider's order:
    the record at index [i] carries the [i]-th identifier and time drawn, the
    fields of the [i]-th article, the request's [category] and [country] (or
    [null]) and no summary. *)
Theorem newsRoute_response (provider : Provider) (randomUUID : nat -> string)
    (now : nat -> Z) (query : Query.t) (st : MemStorage)
    (filters : NewsFilters.t) (response : NewsAPIResponse.t) :
  newsFiltersSchema_parse Number query = Valid filters ->
  provider "/top-headlines" (fetchTopHeadlines numberToString filters) = FetchOk response ->
  exists articles,
    fst (newsRoute Number numberToString dateOf true provider randomUUID now query st)
    = (200, NewsResult (NewsAPIResponse.status response)
              (NewsAPIResponse.totalResults response) articles)
    /\ List.length articles = List.length (NewsAPIResponse.articles response)
    /\ forall i apiArticle,
         nth_error (NewsAPIResponse.articles response) i = Some apiArticle ->
         nth_error articles i
         = Some (storedArticle dateOf randomUUID now filters i apiArticle).
Proof.
  intros Hparse Hfetch. unfold newsRoute, newsHandler, callProvider. simpl.
  rewrite Hparse, Hfetch. simpl. rewrite storeArticles_fst.
  eexists. split; [reflexivity|]. split; [apply mapi_length|].
  intros i a Hi. now rewrite (mapi_nth_error _ _ 0 i a Hi).
Qed.

(** X13. When moreover the identifiers drawn are distinct and new to the
    store, the store after GET /api/news is the store before it followed by
    the records of the response, in their order. *)
Theorem newsRoute_store (provider : Provider) (randomUUID : nat -> string)
    (now : nat -> Z) (query : Query.t) (st : MemStorage)
    (filters : NewsFilters.t) (response : NewsAPIResponse.t) :
  newsFiltersSchema_parse Number query = Valid filters ->
  provider "/top-headlines" (fetchTopHeadlines numberToString filters) = FetchOk response ->
  NoDup (map randomUUID (seq 0 (List.length (NewsAPIResponse.articles response)))) ->
  (forall i, i < List.length (NewsAPIResponse.articles response) ->
             JsMap.get (randomUUID i) st = None) ->
  JsMap.values (snd (newsRoute Number numberToString dateOf true provider randomUUID now
                       query st))
  = (JsMap.values st
     ++ mapi (fun a i => storedArticle dateOf randomUUID now filters i a) 0
          (NewsAPIResponse.articles response))%list.
Proof.
  intros Hparse Hfetch Hnd Hnew. unfold newsRoute, newsHandler, callProvider. simpl.
  rewrite Hparse, Hfetch. simpl.
  rewrite storeArticles_values, storeArticles_fst; [reflexivity | exact Hnd |].
  intros i Hi. apply Hnew. apply in_seq in Hi. lia.
Qed.


(** X15. The failures that the two news routes meet before they write leave
    the store as it was and are answered 500: a service that was not
    constructed, with the message that says so; a query the schema refuses,
    with the issues of the [ZodError], whatever the provider would answer; and
    a call of the provider that fails (the fetch or the reading of the
    response rejects, or the response is not [ok]), with the message of the
    error, which for a response that is not [ok] names its status and text. *)
Theorem news_routes_failure_leaves_store (provider : Provider)
    (randomUUID : nat -> string) (now : nat -> Z) (query : Query.t) (st : MemStorage) :
  let headlines := newsRoute Number numberToString dateOf in
  let search := newsSearchRoute Number numberToString dateOf in
  (headlines false provider randomUUID now query st = ((500, NewsMessage "News service not available. Please check NEWS_API_KEY environment variable."), st)
   /\ search false provider randomUUID now query st = ((500, NewsMessage "News service not available. Please check NEWS_API_KEY environment variable."), st))
  /\ (forall issues,
        newsFiltersSchema_parse Number query = ZodError issues ->
        headlines true provider randomUUID now query st = ((500, NewsInvalid issues), st)
        /\ search true provider randomUUID now query st = ((500, NewsInvalid issues), st))
  /\ (forall filters,
        newsFiltersSchema_parse Number query = Valid filters ->
        (forall message,
            provider "/top-headlines" (fetchTopHeadlines numberToString filters)
            = FetchRejects message ->
            headlines true provider randomUUID now query st
            = ((500, NewsMessage message), st))
        /\ (forall status errorText,
              provider "/top-headlines" (fetchTopHeadlines numberToString filters)
              = FetchNotOk status errorText ->
              headlines true provider randomUUID now query st
              = ((500, NewsMessage ("News API error (" ++ Js.natToString status ++ "): "
                                    ++ errorText)), st))
        /\ (forall message,
              provider "/everything" (searchEverything numberToString filters)
              = FetchRejects message ->
              search true provider randomUUID now query st
              = ((500, NewsMessage message), st))
        /\ (forall status errorText,
              provider "/everything" (searchEverything numberToString filters)
              = FetchNotOk status errorText ->
              search true provider randomUUID now query st
              = ((500, NewsMessage ("News API error (" ++ Js.natToString status ++ "): "
                                    ++ errorText)), st))).
Proof.
  intros headlines search. unfold headlines, search, newsRoute, newsSearchRoute, newsHandler.
  split; [split; reflexivity|]. split.
  - intros issues Hparse. simpl. rewrite Hparse. split; reflexivity.
  - intros filters Hparse. simpl. rewrite Hparse. unfold callProvider.
    repeat split; intros; match goal with H : provider _ _ = _ |- _ => rewrite H end;
      reflexivity.
Qed.

Lemma keyed_summarizeArticleRoute geminiService id summaryLength (st : MemStorage) :
  keyed st -> keyed (snd (summarizeArticleRoute geminiService id summaryLength st)).
Proof.
  intro Hk. unfold summarizeArticleRoute.
  destruct geminiService as [svc|]; [|exact Hk].
  destruct (find _ _) as [article|]; [|exact Hk].
  set (summary := summarizeArticle _ _ _ _).
  pose proof (keyed_applyOp id (OpUpdate id (PartialArticle.ofAiSummary summary)) st
                (conj eq_refl eq_refl) Hk) as H.
  simpl in H. destruct (updateArticle id _ st) as [[updated st']|message]; exact H.
Qed.

Lemma keyed_newsHandler request path newsService provider randomUUID now query
    (st : MemStorage) :
  keyed st ->
  keyed (snd (newsHandler Number dateOf request path newsService provider randomUUID now
                query st)).
Proof.
  intro Hk. unfold newsHandler. destruct newsService; simpl; [|exact Hk].
  destruct (newsFiltersSchema_parse Number query) as [filters|issues]; [|exact Hk].
  destruct (callProvider _ _ _) as [response|message]; [|exact Hk].
  simpl. now apply storeArticles_keyed.
Qed.

(** X16. Whatever requests the process has served since it started, and
    whatever the provider, the engine and the identifiers drawn did, every
    record of the store is stored under its own [id] and no two records share
    an [id]. *)
Theorem serveAll_keyed (requests : list Request) :
  keyed (serveAll Number numberToString dateOf requests)
  /\ NoDup (map Article.id (JsMap.values (serveAll Number numberToString dateOf requests))).
Proof.
  assert (H : forall (st : MemStorage),
             keyed st -> keyed (fold_left (serve Number numberToString dateOf) requests st)).
  { induction requests as [|request requests IH]; intros st Hk; simpl; [exact Hk|].
    apply IH. destruct request; simpl.
    - now apply keyed_newsHandler.
    - now apply keyed_newsHandler.
    - now apply keyed_summarizeArticleRoute. }
  assert (Hk : keyed (serveAll Number numberToString dateOf requests)).
  { apply H. split; [constructor | intros k a []]. }
  split; [exact Hk|]. rewrite keyed_ids by exact Hk. apply Hk.
Qed.

End NewsRoutesFacts.

Lemma news_routes_failure_leaves_store_witness :
  let refused := Query.mk None None None None None None None (Some (QString "150")) None in
  let query := Query.mk (Some (QString "gb")) None None None None None None None None in
  let provider : Provider := fun _ _ => FetchNotOk 429 "rate limited" in
  (exists issues,
      newsRoute NumberOfDigits (fun _ => EmptyString) (fun _ => 1000%Z) true provider
        Js.natToString (fun _ => 5000%Z) refused JsMap.empty
      = ((500, NewsInvalid issues), JsMap.empty))
  /\ newsSearchRoute NumberOfDigits (fun _ => EmptyString) (fun _ => 1000%Z) true provider
       Js.natToString (fun _ => 5000%Z) query JsMap.empty
     = ((500, NewsMessage "News API error (429): rate limited"), JsMap.empty).
Proof.
  intros refused query provider. split.
  - eexists.
    exact (proj1 (proj1 (proj2 (news_routes_failure_leaves_store NumberOfDigits
                                  (fun _ => EmptyString) (fun _ => 1000%Z) provider
                                  Js.natToString (fun _ => 5000%Z) refused JsMap.empty))
                    _ eq_refl)).
  - exact (proj2 (proj2 (proj2 (proj2 (proj2 (news_routes_failure_leaves_store NumberOfDigits
                                  (fun _ => EmptyString) (fun _ => 1000%Z) provider
                                  Js.natToString (fun _ => 5000%Z) query JsMap.empty))
                    _ eq_refl))) 429 "rate limited" eq_refl).
Defined.

Lemma newsRoute_response_witness :
  let article := NewsAPIArticle.mk (NewsAPISource.mk (Some "bbc-news") "BBC News") None
                   "Rates rise" None "https://example.org/1" None "2024-05-01T10:00:00Z"
                   (Some "Body") in
  let response := NewsAPIResponse.mk "ok" (Js.Finite (inject_Z 38)) [article] in
  let query := Query.mk (Some (QString "gb")) None None None None None None None None in
  let filters := NewsFilters.mk (Some "gb") None None None None None None None None in
  exists articles,
    fst (newsRoute NumberOfDigits (fun _ => EmptyString) (fun _ => 1000%Z) true
           (fun _ _ => FetchOk response) Js.natToString (fun _ => 5000%Z) query JsMap.empty)
    = (200, NewsResult "ok" (Js.Finite (inject_Z 38)) articles)
    /\ List.length articles = 1
    /\ forall i apiArticle,
         nth_error [article] i = Some apiArticle ->
         nth_error articles i
         = Some (storedArticle (fun _ => 1000%Z) Js.natToString (fun _ => 5000%Z) filters i
                   apiArticle).
Proof.
  intros article response query filters.
  exact (newsRoute_response NumberOfDigits (fun _ => EmptyString) (fun _ => 1000%Z)
           (fun _ _ => FetchOk response) Js.natToString (fun _ => 5000%Z) query JsMap.empty
           filters response eq_refl eq_refl).
Defined.

Lemma newsRoute_store_witness :
  let article := NewsAPIArticle.mk (NewsAPISource.mk (Some "bbc-news") "BBC News") None
                   "Rates rise" None "https://example.org/1" None "2024-05-01T10:00:00Z"
                   (Some "Body") in
  let response := NewsAPIResponse.mk "ok" (Js.Finite (inject_Z 38)) [article; article] in
  let query := Query.mk (Some (QString "gb")) None None None None None None None None in
  let filters := NewsFilters.mk (Some "gb") None None None None None None None None in
  JsMap.values
    (snd (newsRoute NumberOfDigits (fun _ => EmptyString) (fun _ => 1000%Z) true
            (fun _ _ => FetchOk response) Js.natToString (fun _ => 5000%Z) query JsMap.empty))
  = [storedArticle (fun _ => 1000%Z) Js.natToString (fun _ => 5000%Z) filters 0 article;
     storedArticle (fun _ => 1000%Z) Js.natToString (fun _ => 5000%Z) filters 1 article].
Proof.
  intros article response query filters.
  refine (newsRoute_store NumberOfDigits (fun _ => EmptyString) (fun _ => 1000%Z)
            (fun _ _ => FetchOk response) Js.natToString (fun _ => 5000%Z) query JsMap.empty
            filters response eq_refl eq_refl _ _).
  - repeat constructor; simpl; intuition discriminate.
  - reflexivity.
Defined.


(** ** More on the parameters of the provider request *)

Lemma In_names_remove name n params :
  In n (map fst (URLSearchParams.remove name params)) -> In n (map fst params) /\ n <> name.
Proof.
  unfold URLSearchParams.remove. induction params as [|[n0 v0] rest IH]; simpl; [tauto|].
  destruct (String.eqb_spec n0 name) as [->|Hne]; simpl.
  - intro H. destruct (IH H). auto.
  - intros [<-|H]; [auto|]. destruct (IH H). auto.
Qed.

Lemma NoDup_names_remove name params :
  NoDup (map fst params) -> NoDup (map fst (URLSearchParams.remove name params)).
Proof.
  unfold URLSearchParams.remove. induction params as [|[n0 v0] rest IH]; simpl; [auto|].
  intro Hnd. inversion Hnd as [|? ? Hhead Htail]; subst.
  destruct (n0 =? name); simpl; [now apply IH|].
  constructor; [|now apply IH].
  intro Hin. apply Hhead. now apply (In_names_remove name).
Qed.

Lemma In_names_set name value n params :
  In n (map fst (URLSearchParams.set name value params)) -> n = name \/ In n (map fst params).
Proof.
  induction params as [|[n0 v0] rest IH]; simpl.
  - intros [<-|[]]. now left.
  - destruct (String.eqb_spec n0 name) as [->|Hne]; simpl.
    + intros [<-|H]; [now left|]. right. right. now apply (In_names_remove name).
    + intros [<-|H]; [now right; left|]. destruct (IH H); auto.
Qed.

Lemma NoDup_names_set name value params :
  NoDup (map fst params) -> NoDup (map fst (URLSearchParams.set name value params)).
Proof.
  induction params as [|[n0 v0] rest IH]; simpl.
  - intros _. repeat constructor. simpl. tauto.
  - intro Hnd. inversion Hnd as [|? ? Hhead Htail]; subst.
    destruct (String.eqb_spec n0 name) as [->|Hne]; simpl.
    + constructor; [|now apply NoDup_names_remove].
      intro Hin. now apply In_names_remove in Hin.
    + constructor; [|now apply IH].
      intro Hin. apply In_names_set in Hin as [Heq|Hin]; [congruence | contradiction].
Qed.

(** Comparisons of parameter names are decided by evaluation. *)
Ltac decide_names :=
  repeat match goal with
         | |- context [String.eqb ?a ?b] =>
             let r := eval vm_compute in (String.eqb a b) in
             change (String.eqb a b) with r
         end;
  rewrite ?andb_false_r, ?andb_true_r, ?orb_false_r.

Section ParameterFacts.
Variable numberToString : Js.number -> string.

Lemma wellNamed_set allowed name value params :
  In name allowed -> wellNamed allowed params ->
  wellNamed allowed (URLSearchParams.set name value params).
Proof.
  intros Hin [Hnd Hincl]. split; [now apply NoDup_names_set|].
  intros n Hn. apply In_names_set in Hn as [->|Hn]; [exact Hin | now apply Hincl].
Qed.

Lemma wellNamed_setIfTruthy allowed name value params :
  In name allowed -> wellNamed allowed params ->
  wellNamed allowed (setIfTruthy name value params).
Proof.
  intros Hin Hw. unfold setIfTruthy. destruct value as [v|]; [|exact Hw].
  destruct (Js.truthyStr v); [now apply wellNamed_set | exact Hw].
Qed.

Lemma wellNamed_setSources allowed sources params :
  In "sources" allowed -> wellNamed allowed params ->
  wellNamed allowed (setSources sources params).
Proof.
  intros Hin Hw. unfold setSources. destruct sources as [l|]; [|exact Hw].
  destruct (0 <? List.length l)%nat; [now apply wellNamed_set | exact Hw].
Qed.

Lemma wellNamed_setNumber allowed name value params :
  In name allowed -> wellNamed allowed params ->
  wellNamed allowed (setNumber numberToString name value params).
Proof.
  intros Hin Hw. unfold setNumber. destruct value as [v|]; [|exact Hw].
  destruct (Js.truthyNum v); [now apply wellNamed_set | exact Hw].
Qed.

(** X17. The request of [fetchTopHeadlines] names each parameter once, and
    only [country], [category], [sources], [q], [pageSize] and [page]: the
    [from], [to] and [sortBy] of the filters are never sent. The request of
    [searchEverything] names each parameter once, and only [q], [sources],
    [from], [to], [sortBy], [pageSize] and [page]: [country] and [category]
    are never sent. *)
Theorem provider_request_names (filters : NewsFilters.t) :
  wellNamed ["country"; "category"; "sources"; "q"; "pageSize"; "page"]
    (fetchTopHeadlines numberToString filters)
  /\ wellNamed ["q"; "sources"; "from"; "to"; "sortBy"; "pageSize"; "page"]
       (searchEverything numberToString filters).
Proof.
  split.
  - unfold fetchTopHeadlines.
    assert (Hbody : wellNamed ["country"; "category"; "sources"; "q"; "pageSize"; "page"]
              (setNumber numberToString "page" (NewsFilters.page filters)
                 (setNumber numberToString "pageSize" (NewsFilters.pageSize filters)
                    (setIfTruthy "q" (NewsFilters.q filters)
                       (setSources (NewsFilters.sources filters)
                          (setIfTruthy "category" (NewsFilters.category filters)
                             (setIfTruthy "country" (NewsFilters.country filters)
                                URLSearchParams.empty))))))).
    { repeat first [ apply wellNamed_setNumber | apply wellNamed_setIfTruthy
                   | apply wellNamed_setSources ]; simpl; auto 10.
      split; [constructor | intros n []]. }
    destruct (_ && _); [apply wellNamed_set; simpl; auto | exact Hbody].
  - unfold searchEverything.
    assert (Hbody : wellNamed ["q"; "sources"; "from"; "to"; "sortBy"; "pageSize"; "page"]
              (setNumber numberToString "page" (NewsFilters.page filters)
                 (setNumber numberToString "pageSize" (NewsFilters.pageSize filters)
                    (setIfTruthy "sortBy"
                       (option_map sortByToString (NewsFilters.sortBy filters))
                       (setIfTruthy "to" (NewsFilters.to filters)
                          (setIfTruthy "from" (NewsFilters.from filters)
                             (setSources (NewsFilters.sources filters)
                                (setIfTruthy "q" (NewsFilters.q filters)
                                   URLSearchParams.empty)))))))).
    { repeat first [ apply wellNamed_setNumber | apply wellNamed_setIfTruthy
                   | apply wellNamed_setSources ]; simpl; auto 10.
      split; [constructor | intros n []]. }
    destruct (_ && _); [apply wellNamed_set; simpl; auto | exact Hbody].
Qed.

Lemma has_setSources_any name sources params :
  URLSearchParams.has name (setSources sources params)
  = (match sources with Some l => (0 <? List.length l)%nat | None => false end
     && ("sources" =? name))
    || URLSearchParams.has name params.
Proof.
  unfold setSources. destruct sources as [l|]; [|reflexivity].
  destruct (0 <? List.length l)%nat; [apply has_set | reflexivity].
Qed.

(** X18. The request of [searchEverything] is never without a constraint: it
    always carries [q] or [sources]. *)
Theorem searchEverything_constrained (filters : NewsFilters.t) :
  URLSearchParams.has "q" (searchEverything numberToString filters)
  || URLSearchParams.has "sources" (searchEverything numberToString filters) = true.
Proof.
  unfold searchEverything.
  destruct (negb (Js.truthy (NewsFilters.q filters))
            && sourcesFalsyOrEmpty (NewsFilters.sources filters)) eqn:Hcond.
  - rewrite has_set. reflexivity.
  - rewrite !has_setNumber, !has_setIfTruthy, !has_setSources_any, !has_setIfTruthy.
    decide_names.
    destruct (Js.truthy (NewsFilters.q filters)); [reflexivity|].
    simpl in Hcond. destruct (NewsFilters.sources filters) as [[|s l]|]; try discriminate.
    simpl; rewrite ?orb_true_r; reflexivity.
Qed.

(** X19. Unless [sources] is the empty list, the request of
    [fetchTopHeadlines] carries [country] or [sources]. *)
Theorem fetchTopHeadlines_constrained (filters : NewsFilters.t) :
  NewsFilters.sources filters <> Some [] ->
  URLSearchParams.has "country" (fetchTopHeadlines numberToString filters)
  || URLSearchParams.has "sources" (fetchTopHeadlines numberToString filters) = true.
Proof.
  intro Hsrc. unfold fetchTopHeadlines.
  destruct (sourcesFalsy (NewsFilters.sources filters)
            && negb (Js.truthy (NewsFilters.country filters))) eqn:Hcond.
  - rewrite has_set. reflexivity.
  - rewrite !has_setNumber, !has_setIfTruthy, !has_setSources_any, !has_setIfTruthy.
    decide_names.
    destruct (Js.truthy (NewsFilters.country filters)); [reflexivity|].
    destruct (NewsFilters.sources filters) as [[|s l]|]; try discriminate; [congruence|].
    simpl; rewrite ?orb_true_r; reflexivity.
Qed.

End ParameterFacts.

Lemma fetchTopHeadlines_constrained_witness :
  URLSearchParams.has "country" (fetchTopHeadlines (fun _ => EmptyString) NewsFilters.empty)
  || URLSearchParams.has "sources" (fetchTopHeadlines (fun _ => EmptyString) NewsFilters.empty)
  = true.
Proof.
  apply (fetchTopHeadlines_constrained (fun _ => EmptyString) NewsFilters.empty).
  discriminate.
Defined.

(** ** The list of sources through a query string *)

Lemma split_plain (s : string) :
  ~ In ","%char (list_ascii_of_string s) -> split "," s = [s].
Proof.
  induction s as [|c s IH]; simpl; [reflexivity|].
  intro H. destruct (Ascii.eqb_spec c ","%char) as [->|Hne]; [exfalso; apply H; now left|].
  rewrite IH by tauto. reflexivity.
Qed.

Lemma split_append (s rest : string) :
  ~ In ","%char (list_ascii_of_string s) ->
  split "," (s ++ String ","%char rest) = s :: split "," rest.
Proof.
  induction s as [|c s IH]; simpl.
  - reflexivity.
  - intro H. destruct (Ascii.eqb_spec c ","%char) as [->|Hne]; [exfalso; apply H; now left|].
    rewrite IH by tauto. reflexivity.
Qed.

Lemma split_join (l : list string) :
  l <> [] -> Forall plainSource l -> split "," (Js.join "," l) = l.
Proof.
  induction l as [|x l IH]; [congruence|]. intros _ Hall.
  inversion Hall as [|? ? [Hx _] Hl]; subst.
  destruct l as [|y l]; [now apply split_plain|].
  change (Js.join "," (x :: y :: l)) with (x ++ String ","%char (Js.join "," (y :: l))).
  rewrite split_append by exact Hx. f_equal. apply IH; [discriminate | exact Hl].
Qed.

Lemma filter_plain (l : list string) :
  Forall plainSource l -> filter (fun s => negb (Js.trim s =? "")) l = l.
Proof.
  induction 1 as [|x l [_ Hx] Hl IH]; simpl; [reflexivity|].
  destruct (String.eqb_spec (Js.trim x) ""); [contradiction|]. simpl. now rewrite IH.
Qed.

(** X20. A list of sources written into a query string as the client and the
    service write it, joined by commas, is read back by the schema as the
    same list, when no source holds a comma or is blank; the empty list is
    read back as the empty list. *)
Theorem zSources_join_roundtrip (l : list string) :
  Forall plainSource l ->
  zSources (Some (QString (Js.join "," l))) = inr (Some l).
Proof.
  intro Hall. unfold zSources. do 2 f_equal.
  destruct l as [|x l]; [reflexivity|].
  rewrite split_join by (discriminate || exact Hall). now apply filter_plain.
Qed.

Lemma zSources_join_roundtrip_witness :
  zSources (Some (QString (Js.join "," ["bbc-news"; "the-verge"])))
  = inr (Some ["bbc-news"; "the-verge"]).
Proof.
  apply (zSources_join_roundtrip ["bbc-news"; "the-verge"]).
  repeat constructor; simpl; try discriminate; intuition discriminate.
Defined.

(** ** The filters of the client *)

Lemma get_deleteProp (key name : string) (o : FilterObject) :
  JsMap.get name (deleteProp key o)
  = if key =? name then None
    else JsMap.get name o.
Proof.
  unfold deleteProp. induction o as [|[k v] o IH]; simpl.
  - now destruct (key =? name).
  - destruct (String.eqb_spec k key) as [->|Hk]; simpl.
    + rewrite IH. destruct (String.eqb_spec key name); reflexivity.
    + rewrite IH. destruct (String.eqb_spec k name) as [->|Hn]; [|reflexivity].
      destruct (String.eqb_spec key name); [congruence | reflexivity].
Qed.

Lemma NoDup_keys_deleteProp (key : string) (o : FilterObject) :
  NoDup (JsMap.keys o) -> NoDup (JsMap.keys (deleteProp key o)).
Proof.
  unfold deleteProp, JsMap.keys. induction o as [|[k v] o IH]; simpl; [auto|].
  intro Hnd. inversion Hnd as [|? ? Hhead Htail]; subst.
  destruct (k =? key); simpl; [now apply IH|].
  constructor; [|now apply IH].
  intro Hin. apply Hhead. apply in_map_iff in Hin as ([k' v'] & Hk & Hin).
  apply filter_In in Hin as [Hin _]. simpl in Hk. subst. now apply (in_map fst) in Hin.
Qed.

Lemma get_not_key {V : Type} (m : JsMap.t V) (k : string) :
  ~ In k (JsMap.keys m) -> JsMap.get k m = None.
Proof.
  induction m as [|[k' v] m IH]; simpl; [reflexivity|].
  intro H. destruct (String.eqb_spec k' k); [tauto|]. apply IH. tauto.
Qed.

Section HomeFacts.
Variable nextPage : FilterValue -> FilterValue.
Variable numberToString : Js.number -> string.

Lemma setEntry_get name queryParams key v :
  URLSearchParams.get name (setEntry numberToString queryParams (key, v))
  = if key =? name
    then match rendered numberToString v with
         | Some s => Some s
         | None => URLSearchParams.get name queryParams
         end
    else URLSearchParams.get name queryParams.
Proof.
  unfold setEntry. destruct v; simpl; rewrite ?get_set;
    destruct (key =? name); reflexivity.
Qed.

(** A parameter of the request is the rendering of the property of its name. *)
Lemma toQueryParams_get (filters : FilterObject) (name : string) :
  NoDup (JsMap.keys filters) ->
  URLSearchParams.get name (toQueryParams numberToString filters)
  = rendered numberToString (prop name filters).
Proof.
  unfold toQueryParams, prop.
  assert (H : forall acc,
             NoDup (JsMap.keys filters) ->
             URLSearchParams.get name (fold_left (setEntry numberToString) filters acc)
             = match JsMap.get name filters with
               | Some v => match rendered numberToString v with
                           | Some s => Some s
                           | None => URLSearchParams.get name acc
                           end
               | None => URLSearchParams.get name acc
               end).
  { induction filters as [|[k v] o IH]; intros acc Hnd; simpl; [reflexivity|].
    inversion Hnd as [|? ? Hhead Htail]; subst.
    rewrite IH by exact Htail. rewrite setEntry_get.
    destruct (String.eqb_spec k name) as [->|Hne]; [|reflexivity].
    now rewrite (get_not_key o name Hhead). }
  intro Hnd. rewrite H by exact Hnd.
  destruct (JsMap.get name filters) as [v|]; [|reflexivity].
  now destruct (rendered numberToString v).
Qed.

Lemma NoDup_headerChange filters e :
  NoDup (JsMap.keys filters) -> NoDup (JsMap.keys (headerChange filters e)).
Proof.
  intro Hnd. destruct e; simpl; try (now apply NoDup_keys_set); [constructor|].
  unfold removeFilter.
  repeat match goal with
         | |- context [if ?b then _ else _] => destruct b
         end; repeat apply NoDup_keys_deleteProp; exact Hnd.
Qed.

Lemma NoDup_homeStep filters ev :
  NoDup (JsMap.keys filters) -> NoDup (JsMap.keys (homeStep nextPage filters ev)).
Proof.
  intro Hnd. destruct ev; simpl.
  - unfold handleFiltersChange. now apply NoDup_keys_set, NoDup_keys_set, NoDup_headerChange.
  - repeat constructor; simpl; intuition discriminate.
  - unfold handleLoadMore. now apply NoDup_keys_set.
Qed.

Lemma no_q_headerChange filters e :
  JsMap.get "q" filters = None -> JsMap.get "q" (headerChange filters e) = None.
Proof.
  intro Hq. destruct e; simpl; rewrite ?get_set_neq by discriminate; auto.
  unfold removeFilter.
  repeat match goal with
         | |- context [if ?b then _ else _] => destruct b
         end; rewrite ?get_deleteProp; simpl; exact Hq.
Qed.

Lemma no_q_homeStep filters ev :
  JsMap.get "q" filters = None -> JsMap.get "q" (homeStep nextPage filters ev) = None.
Proof.
  intro Hq. destruct ev; cbn [homeStep]; unfold handleFiltersChange, handleLoadMore;
    rewrite !get_set_neq by discriminate; [now apply no_q_headerChange | reflexivity | exact Hq].
Qed.

Lemma homeRun_invariant (events : list HomeEvent) :
  NoDup (JsMap.keys (homeRun nextPage events))
  /\ JsMap.get "q" (homeRun nextPage events) = None.
Proof.
  unfold homeRun.
  assert (H : forall filters,
             NoDup (JsMap.keys filters) /\ JsMap.get "q" filters = None ->
             NoDup (JsMap.keys (fold_left (homeStep nextPage) events filters))
             /\ JsMap.get "q" (fold_left (homeStep nextPage) events filters) = None).
  { induction events as [|ev events IH]; intros filters [Hnd Hq]; simpl; [now split|].
    apply IH. split; [now apply NoDup_homeStep | now apply no_q_homeStep]. }
  apply H. split; [|reflexivity].
  repeat constructor; simpl; intuition discriminate.
Qed.

(** The request of the home page after any events. *)
Lemma home_request (events : list HomeEvent) (preferredSources : list string) :
  let effective := effectiveFilters preferredSources (homeRun nextPage events) in
  queryFn numberToString effective = fetchNews numberToString effective
  /\ NoDup (JsMap.keys effective)
  /\ JsMap.get "q" effective = None.
Proof.
  intro effective.
  destruct (homeRun_invariant events) as [Hnd Hq].
  assert (Hq' : JsMap.get "q" effective = None).
  { unfold effective, effectiveFilters. now rewrite get_set_neq by discriminate. }
  split; [unfold queryFn, prop; now rewrite Hq'|].
  split; [|exact Hq'].
  unfold effective, effectiveFilters. now apply NoDup_keys_set.
Qed.

(** X21. Whatever the user does in the header and on the home page, and
    whatever the preferred sources, the filters never get a property [q]: the
    home page always calls [fetchNews], never [searchNews], and the request
    has no parameter [q]. *)
Theorem home_never_searches (events : list HomeEvent) (preferredSources : list string) :
  let effective := effectiveFilters preferredSources (homeRun nextPage events) in
  queryFn numberToString effective = fetchNews numberToString effective
  /\ URLSearchParams.get "q" (toQueryParams numberToString effective) = None.
Proof.
  intro effective.
  destruct (home_request events preferredSources) as (Hfn & Hnd & Hq).
  split; [exact Hfn|].
  rewrite toQueryParams_get by exact Hnd. unfold prop.
  change (JsMap.get "q" effective) with
    (JsMap.get "q" (effectiveFilters preferredSources (homeRun nextPage events))).
  now rewrite Hq.
Qed.

(** X22. The text submitted in the search box, or recognised by the voice
    search, is sent to [/api/news] under the name [query], and [pageSize] and
    [page] are sent as 20 and 1 with it. *)
Theorem search_text_sent_as_query (events : list HomeEvent) (preferredSources : list string)
    (text : string) (voice : bool) :
  let e := if voice then VoiceSearch text else SearchSubmit text in
  let effective :=
    effectiveFilters preferredSources (homeRun nextPage (events ++ [FromHeader e])) in
  exists queryParams,
    queryFn numberToString effective = Get "/api/news" queryParams
    /\ URLSearchParams.get "query" queryParams = Some text
    /\ URLSearchParams.get "pageSize" queryParams
       = Some (numberToString (Js.Finite (inject_Z 20)))
    /\ URLSearchParams.get "page" queryParams
       = Some (numberToString (Js.Finite (inject_Z 1))).
Proof.
  intros e effective.
  destruct (home_request (events ++ [FromHeader e]) preferredSources)
    as (Hfn & Hnd & _).
  exists (toQueryParams numberToString effective).
  split; [exact Hfn|].
  assert (Hrun : homeRun nextPage (events ++ [FromHeader e])
                 = handleFiltersChange (headerChange (homeRun nextPage events) e)).
  { unfold homeRun. now rewrite fold_left_app. }
  rewrite !toQueryParams_get by exact Hnd.
  unfold effective, effectiveFilters, prop. rewrite Hrun.
  rewrite !get_set_neq by discriminate.
  unfold handleFiltersChange.
  rewrite get_set_neq, get_set_neq by discriminate.
  rewrite get_set_neq, get_set_eq by discriminate. rewrite get_set_eq.
  split; [|split; reflexivity].
  destruct voice; simpl; now rewrite get_set_eq.
Qed.

End HomeFacts.

(** ** Preferred sources *)

(** X23. [toggleSource] flips the membership of the source and of no other:
    afterwards the source is in the list exactly when it was not, and every
    other source is in it exactly when it was. It keeps a list without
    repetition free of repetition, and toggling twice a source that was not
    in the list gives the list back. *)
Theorem toggleSource_flips (sourceId : string) (preferredSources : list string) :
  (forall x, In x (toggleSource sourceId preferredSources) <->
             if x =? sourceId then ~ In sourceId preferredSources
             else In x preferredSources)
  /\ (NoDup preferredSources -> NoDup (toggleSource sourceId preferredSources))
  /\ (~ In sourceId preferredSources ->
      toggleSource sourceId (toggleSource sourceId preferredSources) = preferredSources).
Proof.
  unfold toggleSource at 1 2.
  destruct (Js.includes preferredSources (Some sourceId)) eqn:Hinc.
  - apply includes_In in Hinc. split; [|split].
    + intro x. rewrite filter_In. destruct (String.eqb_spec x sourceId) as [->|Hne]; simpl.
      * split; [intros [_ [=]] | tauto].
      * tauto.
    + apply NoDup_filter.
    + tauto.
  - assert (Hnot : ~ In sourceId preferredSources).
    { intro H. apply includes_In in H. congruence. }
    split; [|split].
    + intro x. rewrite in_app_iff. simpl.
      destruct (String.eqb_spec x sourceId) as [->|Hne]; [tauto|].
      split; [intros [H|[H|[]]]; [exact H | congruence] | tauto].
    + intro Hnd. apply NoDup_app; [exact Hnd | repeat constructor; simpl; tauto |].
      intros x Hx [<-|[]]. contradiction.
    + intros _. unfold toggleSource. rewrite Hinc.
      assert (Hin : Js.includes (preferredSources ++ [sourceId]) (Some sourceId) = true).
      { apply includes_In, in_app_iff. right. now left. }
      rewrite Hin, filter_app. simpl. rewrite String.eqb_refl. simpl. rewrite app_nil_r.
      clear Hinc Hin. induction preferredSources as [|y l IH]; [reflexivity|].
      simpl. destruct (String.eqb_spec y sourceId) as [->|Hne]; simpl.
      * exfalso. apply Hnot. now left.
      * f_equal. apply IH. intro H. apply Hnot. now right.
Qed.

(** ** The list of articles of the home page and the store *)

Lemma values_set_map (st : MemStorage) (id : string) (a : Article.t)
    (updates : PartialArticle.t) :
  keyed st -> JsMap.get id st = Some a ->
  JsMap.values (JsMap.set id (merge a updates) st)
  = map (fun x => if Article.id x =? id then merge x updates else x) (JsMap.values st).
Proof.
  intros [Hnd Hid]. induction st as [|[k v] st IH]; simpl; [discriminate|].
  inversion Hnd as [|? ? Hhead Htail]; subst.
  assert (Hkv : Article.id v = k) by (apply Hid; now left).
  destruct (String.eqb_spec k id) as [->|Hne].
  - intros [= ->]. simpl. rewrite Hkv, String.eqb_refl. f_equal.
    fold (JsMap.values st).
    transitivity (map (fun x : Article.t => x) (JsMap.values st));
      [symmetry; apply map_id | apply map_ext_in].
    intros x Hx. apply in_map_iff in Hx as ([k' x'] & <- & Hin). simpl.
    rewrite (Hid k' x') by now right.
    destruct (String.eqb_spec k' id) as [->|]; [|reflexivity].
    exfalso. apply Hhead. now apply (in_map fst) in Hin.
  - intro Hget. simpl. rewrite Hkv.
    destruct (String.eqb_spec k id); [contradiction|].
    f_equal. apply IH; [exact Htail | intros; apply Hid; now right | exact Hget].
Qed.

(** X24. When the summarize-article route succeeds for a stored article, the
    update that the home page makes of its own list, [handleSummarize] with
    the [id] and the summary of the response, gives from the records of the
    store before the request the records of the store after it: the client
    and the store make the same change. *)
Theorem handleSummarize_follows_store (svc : GeminiService.t) (id : string)
    (summaryLength : option SummaryLength) (st : MemStorage) (a : Article.t) :
  keyed st ->
  JsMap.get id st = Some a ->
  exists article summary,
    Response.body (fst (summarizeArticleRoute (Some svc) id summaryLength st))
    = ArticleAndSummary article summary
    /\ handleSummarize (Article.id article) summary (JsMap.values st)
       = JsMap.values (snd (summarizeArticleRoute (Some svc) id summaryLength st)).
Proof.
  intros Hk Hget. unfold summarizeArticleRoute.
  rewrite (find_by_id st id a Hk Hget).
  set (summary := summarizeArticle _ _ _ _).
  unfold updateArticle. rewrite Hget. simpl.
  exists (merge a (PartialArticle.ofAiSummary summary)), summary.
  split; [reflexivity|].
  rewrite (values_set_map st id a _ Hk Hget).
  unfold handleSummarize. apply map_ext. intro x.
  replace (Article.id (merge a (PartialArticle.ofAiSummary summary))) with id; [reflexivity|].
  simpl. symmetry. destruct Hk as [_ Hid]. apply Hid. now apply get_In.
Qed.

Lemma handleSummarize_follows_store_witness :
  let a := Article.mk "a1" "Title" None (Some "Body") "https://example.org/1" None 1000%Z
             None None None None None (Some 5000%Z) in
  let svc := GeminiService.mk (fun _ _ => EngineResponds (Some " A summary. ")) in
  exists article summary,
    Response.body (fst (summarizeArticleRoute (Some svc) "a1" None [("a1", a)]))
    = ArticleAndSummary article summary
    /\ handleSummarize (Article.id article) summary [a]
       = JsMap.values (snd (summarizeArticleRoute (Some svc) "a1" None [("a1", a)])).
Proof.
  intros a svc.
  refine (handleSummarize_follows_store svc "a1" None [("a1", a)] a _ eq_refl).
  split; [repeat constructor; simpl; tauto|].
  intros k b [[= <- <-]|[]]. reflexivity.
Defined.

(** ** Speech recognition *)

Lemma append_empty_r (s : string) : (s ++ "")%string = s.
Proof. induction s as [|c s IH]; simpl; [reflexivity | now rewrite IH]. Qed.

Lemma append_assoc (a b c : string) : ((a ++ b) ++ c)%string = (a ++ (b ++ c))%string.
Proof. induction a as [|x a IH]; simpl; [reflexivity | now rewrite IH]. Qed.

Lemma join_empty_cons (x : string) (l : list string) :
  Js.join "" (x :: l) = (x ++ Js.join "" l)%string.
Proof. destruct l; simpl; [now rewrite append_empty_r | reflexivity]. Qed.

Lemma collectTranscripts_eq (results : list RecognitionResult.t) :
  forall finalTranscript interimTranscript,
    collectTranscripts results finalTranscript interimTranscript
    = ((finalTranscript ++ transcriptsOf true results)%string,
       (interimTranscript ++ transcriptsOf false results)%string).
Proof.
  unfold transcriptsOf.
  induction results as [|r results IH]; intros f i; simpl.
  - now rewrite !append_empty_r.
  - destruct (RecognitionResult.isFinal r); rewrite IH; cbn [Bool.eqb map];
      rewrite join_empty_cons, append_assoc; reflexivity.
Qed.

(** X25. The phrase of a recognition event is the text of the final results
    from [resultIndex] on, put together, and the text of the others only when
    the final ones give none. It leads to a search only when the last result
    of the event is final, and to none when [resultIndex] is past the
    results. *)
Theorem recognition_event_search (onSearch : bool) (event : RecognitionEvent.t) :
  let fresh :=
    skipn (RecognitionEvent.resultIndex event) (RecognitionEvent.results event) in
  fullTranscript event
  = (if transcriptsOf true fresh =? "" then transcriptsOf false fresh
     else transcriptsOf true fresh)
  /\ (lastIsFinal event = false -> voiceSearchOn onSearch event = None)
  /\ (List.length (RecognitionEvent.results event) <= RecognitionEvent.resultIndex event ->
      voiceSearchOn onSearch event = None).
Proof.
  intro fresh.
  assert (Hfull : fullTranscript event
                  = (if transcriptsOf true fresh =? "" then transcriptsOf false fresh
                     else transcriptsOf true fresh)).
  { unfold fullTranscript. fold fresh. rewrite collectTranscripts_eq. simpl.
    unfold Js.truthyStr. now destruct (transcriptsOf true fresh =? ""). }
  split; [exact Hfull|]. split.
  - intro Hlast. unfold voiceSearchOn, onResult, recognized. simpl. now rewrite Hlast.
  - intro Hlen. unfold voiceSearchOn, onResult, recognized. simpl.
    rewrite Hfull. unfold fresh. rewrite skipn_all2 by exact Hlen.
    simpl. now rewrite andb_false_r.
Qed.

Lemma recognition_event_search_witness :
  voiceSearchOn true
    (RecognitionEvent.mk 0
       [RecognitionResult.mk "find rates" (Js.Finite (inject_Z 1)) true;
        RecognitionResult.mk " today" (Js.Finite (inject_Z 0)) false])
  = None.
Proof.
  apply (proj1 (proj2 (recognition_event_search true
           (RecognitionEvent.mk 0
              [RecognitionResult.mk "find rates" (Js.Finite (inject_Z 1)) true;
               RecognitionResult.mk " today" (Js.Finite (inject_Z 0)) false])))).
  reflexivity.
Defined.

(** ** The query of a voice command *)

Lemma stripPrefix_cases command lowerCommand remaining searchQuery :
  stripPrefix command lowerCommand remaining searchQuery = searchQuery
  \/ exists prefix,
       In prefix remaining
       /\ stripPrefix command lowerCommand remaining searchQuery
          = Js.trim (Js.substring (String.length prefix) command).
Proof.
  induction remaining as [|p remaining IH]; simpl; [now left|].
  destruct (Js.startsWith lowerCommand p).
  - right. exists p. split; [now left | reflexivity].
  - destruct IH as [H|(prefix & Hin & H)]; [now left|].
    right. exists prefix. split; [now right | exact H].
Qed.

(** X26. Whatever is recognised, [onSearch] is never called with an empty
    query nor with a query that has white space at its ends. *)
Theorem onResult_query_clean (onSearch : bool) (result : SpeechResult.t) (query : string) :
  onResult onSearch result = Some query ->
  query <> "" /\ Js.trim query = query.
Proof.
  unfold onResult, processVoiceCommand.
  destruct (SpeechResult.isFinal result && _); [|discriminate].
  set (command := Js.trim (SpeechResult.transcript result)).
  destruct (onSearch && Js.truthyStr (searchQueryOf command)) eqn:Hcall; [|discriminate].
  intros [= <-]. apply andb_true_iff in Hcall as [_ Htruthy].
  split; [now apply truthyStr_true|].
  unfold searchQueryOf.
  destruct (stripPrefix_cases command (Js.toLowerCase command) prefixes command)
    as [-> | (prefix & _ & ->)]; apply trim_idem.
Qed.

Lemma onResult_query_clean_witness :
  "rates and prices" <> "" /\ Js.trim "rates and prices" = "rates and prices".
Proof.
  exact (onResult_query_clean true (SpeechResult.mk "  Search for  rates and prices " true)
           "rates and prices" eq_refl).
Defined.

(** ** More on the schema and on the store *)

Lemma split_no_comma (val x : string) :
  In x (split "," val) -> ~ In ","%char (list_ascii_of_string x).
Proof.
  revert x. induction val as [|c rest IH]; simpl; intros x.
  - intros [<-|[]]. simpl. tauto.
  - destruct (Ascii.eqb_spec c ","%char) as [->|Hne].
    + intros [<-|Hin]; [simpl; tauto | now apply IH].
    + destruct (split "," rest) as [|head tail] eqn:Hs.
      * intros [<-|[]]. simpl. intros [H|[]]. congruence.
      * intros [<-|Hin].
        -- simpl. intros [H|H]; [congruence|]. revert H. apply IH. now left.
        -- apply IH. now right.
Qed.

(** X27. The sources that the schema reads from a string hold no comma and
    are not blank, so that writing them into a query string again and reading
    it gives the same list. *)
Theorem zSources_of_string (val : string) :
  exists l,
    zSources (Some (QString val)) = inr (Some l)
    /\ Forall plainSource l
    /\ zSources (Some (QString (Js.join "," l))) = inr (Some l).
Proof.
  eexists. split; [reflexivity|].
  assert (Hall : Forall plainSource
                   (filter (fun s => negb (Js.trim s =? "")) (split "," val))).
  { apply Forall_forall. intros x Hx. apply filter_In in Hx as [Hin Hnb]. split.
    - now apply (split_no_comma val).
    - destruct (String.eqb_spec (Js.trim x) ""); [discriminate | assumption]. }
  split; [exact Hall|].
  unfold zSources. do 2 f_equal.
  destruct (filter _ (split "," val)) as [|x l] eqn:Hl; [reflexivity|].
  rewrite split_join by (discriminate || exact Hall). now apply filter_plain.
Qed.

(** Dropping articles from a list with distinct [id]s leaves distinct [id]s. *)
Lemma distinct_ids_filter (keep : Article.t -> bool) (articles : list Article.t) :
  NoDup (map Article.id articles) -> NoDup (map Article.id (filter keep articles)).
Proof.
  induction articles as [|a articles IH]; simpl; intro Hnd; [exact Hnd|].
  inversion Hnd as [|? ? Hfirst Hrest]; subst.
  destruct (keep a); simpl; [|now apply IH].
  constructor; [|now apply IH].
  intro Hin. apply Hfirst. apply in_map_iff in Hin as (b & Hb & Hin).
  apply filter_In in Hin as [Hin _]. rewrite <- Hb. now apply in_map.
Qed.

(** X28. From a store keyed by [id], [getArticles] returns no article twice:
    the [id]s of its result are pairwise distinct, whatever the filter. *)
Theorem getArticles_distinct (filters : option ArticleFilters.t) (st : MemStorage) :
  keyed st -> NoDup (map Article.id (getArticles filters st)).
Proof.
  intro Hk. rewrite getArticles_eq.
  apply (Permutation_NoDup
           (l := map Article.id (filter (matches filters) (JsMap.values st)))).
  - apply Permutation_map, Permutation_sym, sort_perm.
  - apply distinct_ids_filter. rewrite keyed_ids by exact Hk. apply Hk.
Qed.

Lemma getArticles_distinct_witness :
  let a := Article.mk "a1" "Title" None None "https://example.org/1" None 1000%Z None
             None None None None (Some 5000%Z) in
  NoDup (map Article.id (getArticles None [("a1", a)])).
Proof.
  intro a. apply (getArticles_distinct None [("a1", a)]).
  split; [repeat constructor; simpl; tauto|].
  intros k b [[= <- <-]|[]]. reflexivity.
Defined.

(** X29. Summarising an article again, with an engine that answers the same,
    changes nothing: the route gives the same response and leaves the store
    that the first request left. *)
Theorem summarizeArticleRoute_idempotent (geminiService : option GeminiService.t)
    (id : string) (summaryLength : option SummaryLength) (st : MemStorage) :
  keyed st ->
  summarizeArticleRoute geminiService id summaryLength
    (snd (summarizeArticleRoute geminiService id summaryLength st))
  = summarizeArticleRoute geminiService id summaryLength st.
Proof.
  intro Hk. unfold summarizeArticleRoute at 2 3.
  destruct geminiService as [svc|]; [|reflexivity].
  destruct (find (fun a => Article.id a =? id) (getArticles None st)) as [article|] eqn:Hfind.
  2: { simpl. unfold summarizeArticleRoute. now rewrite Hfind. }
  assert (Hget : JsMap.get id st = Some article).
  { apply find_some in Hfind as [Hin Hid]. apply String.eqb_eq in Hid.
    apply In_getArticles in Hin as [Hin _]. apply In_values in Hin as [k Hin].
    destruct Hk as [Hnd Hkey]. rewrite <- Hid, (Hkey k article Hin). now apply In_get. }
  set (summary := summarizeArticle svc (Article.title article)
                    (Js.orStr (Js.or (Article.content article) (Article.description article))
                       "") summaryLength).
  unfold updateArticle. rewrite Hget. cbn [snd].
  set (updated := merge article (PartialArticle.ofAiSummary summary)).
  assert (Hk1 : keyed (JsMap.set id updated st)).
  { pose proof (keyed_applyOp id (OpUpdate id (PartialArticle.ofAiSummary summary)) st
                  (conj eq_refl eq_refl) Hk) as H.
    simpl in H. unfold updateArticle in H. now rewrite Hget in H. }
  unfold summarizeArticleRoute.
  rewrite (find_by_id (JsMap.set id updated st) id updated Hk1 (get_set_eq st id updated)).
  change (summarizeArticle svc (Article.title updated)
            (Js.orStr (Js.or (Article.content updated) (Article.description updated)) "")
            summaryLength) with summary.
  unfold updateArticle. rewrite get_set_eq, set_set. reflexivity.
Qed.

Lemma summarizeArticleRoute_idempotent_witness :
  let a := Article.mk "a1" "Title" None (Some "Body") "https://example.org/1" None 1000%Z
             None None None None None (Some 5000%Z) in
  let svc := Some (GeminiService.mk (fun _ _ => EngineResponds (Some "A summary."))) in
  summarizeArticleRoute svc "a1" None (snd (summarizeArticleRoute svc "a1" None [("a1", a)]))
  = summarizeArticleRoute svc "a1" None [("a1", a)].
Proof.
  intros a svc. apply (summarizeArticleRoute_idempotent svc "a1" None [("a1", a)]).
  split; [repeat constructor; simpl; tauto|].
  intros k b [[= <- <-]|[]]. reflexivity.
Defined.
